(** * next-apollo: the [withData] higher-order component

    A shallow embedding of [src/withData.js].  JavaScript objects are finite
    maps from property names to values, the module-level [apolloClient]
    variable and the allocated [ApolloClient] objects live in an explicit
    [World], and every function of the module is a computation over that
    world which either completes normally or throws. *)

From stdpp Require Import gmap strings list fin_maps.

Open Scope string_scope.
Open Scope list_scope.

(** ** JavaScript values *)

(** Identity of an [ApolloClient] object: two clients are the same instance
    exactly when their locations are equal. *)
Definition loc := nat.

Section Values.
(** The type of cache objects ([InMemoryCache] or whatever a user-supplied
    [createCache] returns) is left open. *)
Context {Cache : Type}.

Inductive value : Type :=
| VUndefined
| VNull
| VBool (b : bool)
| VStr (s : string)
| VData (d : gmap string string)   (* plain serialisable object, e.g. a cache snapshot *)
| VOpaque (tag : string)           (* any other object (an [HttpLink], ...) *)
| VCache (c : Cache)               (* a cache object, given by its contents *)
| VClient (l : loc)
| VFunction (f : unit -> value).   (* a function of no argument returning a new
                                      object at each call, e.g. [createCache] *)

(** JavaScript truthiness, as used by [||], [!] and [if]. *)
Definition truthy (v : value) : bool :=
  match v with
  | VUndefined | VNull => false
  | VBool b => b
  | VStr s => negb (String.eqb s "")
  | _ => true
  end.

(** [a || b] *)
Definition js_or (a b : value) : value := if truthy a then a else b.

(** [o.k]: a missing property reads as [undefined]. *)
Definition prop (o : gmap string value) (k : string) : value :=
  default VUndefined (o !! k).

(** Default parameter [x = d]: only [undefined] is replaced. *)
Definition default_param (x d : value) : value :=
  match x with VUndefined => d | _ => x end.

(** [{ ...defaults, ...o }]: the own properties of [o] win. *)
Definition spread_over (defaults o : gmap string value) : gmap string value :=
  o ∪ defaults.
End Values.

Arguments value : clear implicits.

(** The interface of Apollo caches this module relies on: the default
    constructor [new InMemoryCache()], [cache.restore(data)] (which returns
    the cache) and [cache.extract()]. *)
Class ApolloCache (Cache : Type) := {
  new_InMemoryCache : Cache;
  restore : Cache -> value Cache -> Cache;
  extract : Cache -> gmap string string
}.

(** A cache whose [restore] replaces its contents by the given snapshot. *)
Class RestoringCache (Cache : Type) `{ApolloCache Cache} : Prop :=
  extract_restore : forall (c : Cache) (d : gmap string string),
    extract (restore c (VData d)) = d.

(** The reference cache: its state is the normalised store. *)
Record InMemoryCache := { data : gmap string string }.

#[export] Instance InMemoryCache_cache : ApolloCache InMemoryCache := {
  new_InMemoryCache := {| data := ∅ |};
  restore c v := match v with VData d => {| data := d |} | _ => c end;
  extract c := data c
}.

#[export] Instance InMemoryCache_restoring : RestoringCache InMemoryCache.
Proof. intros c d. reflexivity. Qed.

(** ** Errors, the world and the computation monad *)

Inductive Error :=
| TypeError (msg : string)
| Thrown (msg : string).

Inductive Completion (A : Type) :=
| Normal (a : A)
| Throw (e : Error).
Arguments Normal {A} a.
Arguments Throw {A} e.

Section Model.
Context {Cache : Type} `{!ApolloCache Cache}.

Abbreviation value := (value Cache).
Abbreviation object := (gmap string value).

(** [new ApolloClient(config)]: the client keeps the options it was built
    from, and [client.cache] is the [cache] option. *)
Record ApolloClient := { cache : value; options : object }.

Abbreviation heap := (gmap loc ApolloClient).

(** A React element built by this module. *)
Inductive Element :=
| AppTreeElement (AppTree : string) (pageProps : object)
| ApolloProviderElement (client : value) (PageComponent : string) (pageProps : object).

Inductive Event :=
| ConsoleWarn (msg : string)
| ConsoleError (msg : string) (error : Error)
| GetDataFromTree (tree : Element)
| HeadRewind.

Record World := {
  apolloClient : option loc;     (* [let apolloClient = null] *)
  next_loc : loc;                (* allocator of object identities *)
  clients : heap;                (* the [ApolloClient] objects allocated so far *)
  trace : list Event             (* console output and calls into the libraries *)
}.

Definition M (A : Type) : Type := World -> Completion A * World.

Definition ret {A} (a : A) : M A := fun w => (Normal a, w).

Definition bind {A B} (m : M A) (k : A -> M B) : M B :=
  fun w => match m w with
           | (Normal a, w') => k a w'
           | (Throw e, w') => (Throw e, w')
           end.

Definition throw {A} (e : Error) : M A := fun w => (Throw e, w).

(** [try { body } catch (error) { handler }] *)
Definition try_catch {A} (body : M A) (handler : Error -> M A) : M A :=
  fun w => match body w with
           | (Normal a, w') => (Normal a, w')
           | (Throw e, w') => handler e w'
           end.

Definition gets {A} (f : World -> A) : M A := fun w => (Normal (f w), w).

Definition modify (f : World -> World) : M unit := fun w => (Normal tt, f w).

Definition log (e : Event) : M unit :=
  modify (fun w => {| apolloClient := apolloClient w; next_loc := next_loc w;
                      clients := clients w; trace := trace w ++ [e] |}).

Definition set_apolloClient (h : option loc) (w : World) : World :=
  {| apolloClient := h; next_loc := next_loc w;
     clients := clients w; trace := trace w |}.

(** Code outside this module (the wrapped page, [getDataFromTree]) cannot
    reach the module-level variable; it can read and mutate the client
    objects it is handed. *)
Definition External (A : Type) : Type := heap -> Completion A * heap.

Definition external {A} (f : External A) : M A :=
  fun w => let '(r, h) := f (clients w) in
           (r, {| apolloClient := apolloClient w; next_loc := next_loc w;
                  clients := h; trace := trace w |}).
End Model.

Arguments ApolloClient : clear implicits.
Arguments Element : clear implicits.
Arguments Event : clear implicits.
Arguments World : clear implicits.
Arguments M : clear implicits.
Arguments External : clear implicits.

Declare Scope js_scope.
Delimit Scope js_scope with js.
Notation "x <~ c ;; k" := (bind c (fun x => k))
  (at level 100, c at next level, right associativity) : js_scope.
Notation "c ;;; k" := (bind c (fun _ => k))
  (at level 100, k at level 200, right associativity) : js_scope.
Open Scope js_scope.

(** ** The module [withData.js] *)

Section WithData.
Context {Cache : Type} `{!ApolloCache Cache}.

Abbreviation value := (value Cache).
Abbreviation object := (gmap string value).
Abbreviation M := (M Cache).

(** [context.res] *)
Record Response := { finished : bool }.

(** The context object of the framework's data-fetching hook. *)
Record Context := {
  AppTree : string;
  res : option Response;
  context_apolloClient : value;     (* [context.apolloClient] *)
  query : gmap string string
}.

(** What the execution environment provides. *)
Record Runtime := {
  window_defined : bool;            (* [typeof window !== 'undefined'] *)
  NODE_ENV : string;                (* [process.env.NODE_ENV] *)
  react_ssr : Completion (Element Cache -> External Cache unit);
                                    (* [import('@apollo/react-ssr')] and its
                                       [getDataFromTree] *)
  ApolloClient_invariant : object -> option Error
                                    (* the error the constructor of the client
                                       library throws on these options, if it
                                       rejects them *)
}.

(** The argument of the factory: a configuration, or a function from the
    request context to one ([isFunction] tells them apart). *)
Inductive ApolloConfig :=
| ConfigObject (config : object)
| ConfigFunction (f : option Context -> object).

(** The wrapped page.  Its hook may use and mutate the client it finds in the
    context, and may mutate the context (finishing the response). *)
Record PageComponent := {
  displayName : option string;
  name : string;
  getServerSideProps : option (Context -> External Cache (object * Context))
}.

(** [const createDefaultCache = () => new InMemoryCache()] *)
Definition createDefaultCache : unit -> value :=
  fun _ => VCache new_InMemoryCache.

(** [f()] *)
Definition call (f : value) : M value :=
  match f with
  | VFunction g => ret (g tt)
  | _ => throw (TypeError "createCache is not a function")
  end.

(** [c.restore(d)], on the new object [createCache()] has just returned: its
    contents after the call.  Cache objects are given by their contents, so a
    cache object shared between clients is not represented. *)
Definition call_restore (c d : value) : M value :=
  match c with
  | VCache k => ret (VCache (restore k d))
  | _ => throw (TypeError "createCache(...).restore is not a function")
  end.

(** [new ApolloClient(config)]: the library's constructor throws when it
    rejects the options, and otherwise returns a new client object. *)
Definition new_ApolloClient (rt : Runtime) (config : object) : M loc :=
  fun w =>
    match ApolloClient_invariant rt config with
    | Some e => (Throw e, w)
    | None =>
        let l := next_loc w in
        (Normal l,
         {| apolloClient := apolloClient w;
            next_loc := S l;
            clients :=
              <[l := {| cache := prop config "cache"; options := config |}]> (clients w);
            trace := trace w |})
    end.

(** The object literal handed to the constructor, before [createCache] is
    deleted from it. *)
Definition config_literal (rt : Runtime) (cache : value) (apolloConfig : object) : object :=
  spread_over
    (<["cache" := cache]> (<["ssrMode" := VBool (negb (window_defined rt))]> ∅))
    apolloConfig.

Definition createApolloClient (rt : Runtime) (apolloConfig : object)
    (initialState : value) : M loc :=
  let initialState := default_param initialState (VData ∅) in
  let createCache := js_or (prop apolloConfig "createCache") (VFunction createDefaultCache) in
  made <~ call createCache ;;
  cache <~ call_restore made (js_or initialState (VData ∅)) ;;
  let config := config_literal rt cache apolloConfig in
  let config := delete "createCache" config in
  new_ApolloClient rt config.

Definition resolve_config (apolloConfig : ApolloConfig) (context : option Context) : object :=
  match apolloConfig with
  | ConfigFunction f => f context
  | ConfigObject config => config
  end.

Definition initApolloClient (rt : Runtime) (apolloConfig : ApolloConfig)
    (initialState : value) (context : option Context) : M loc :=
  let initialState := default_param initialState (VData ∅) in
  let apolloConfig := resolve_config apolloConfig context in
  if negb (window_defined rt) then
    createApolloClient rt apolloConfig initialState
  else
    current <~ gets apolloClient ;;
    match current with
    | None =>
        created <~ createApolloClient rt apolloConfig initialState ;;
        modify (set_apolloClient (Some created)) ;;;
        ret created
    | Some existing => ret existing
    end.
(** [useMemo(factory, [])]: the factory runs when the component instance has
    no memoised value yet, and the memoised value is reused afterwards. *)
Definition useMemo (memo : option value) (factory : M value) : M value :=
  match memo with
  | Some v => ret v
  | None => factory
  end.

(** The function component [WithApollo]; [memo] is the memo cell of the
    component instance, returned updated. *)
Definition WithApollo (rt : Runtime) (apolloConfig : ApolloConfig)
    (PageComponent : PageComponent) (memo : option value) (props : object)
    : M (Element Cache * option value) :=
  let apolloClient := prop props "apolloClient" in
  let apolloState := prop props "apolloState" in
  let pageProps := delete "apolloState" (delete "apolloClient" props) in
  client <~ useMemo memo
    (if truthy apolloClient then ret apolloClient
     else
       created <~ initApolloClient rt apolloConfig apolloState None ;;
       ret (VClient created)) ;;
  ret (ApolloProviderElement client (name PageComponent) pageProps, Some client).

(** [context.res && context.res.finished] *)
Definition response_finished (context : Context) : bool :=
  match res context with
  | Some r => finished r
  | None => false
  end.

(** [apolloClient.cache.extract()] *)
Definition cache_extract (client : loc) : M (gmap string string) :=
  found <~ gets (fun w => clients w !! client) ;;
  match cache <$> found with
  | Some (VCache k) => ret (extract k)
  | _ => throw (TypeError "apolloClient.cache.extract is not a function")
  end.

(** The [try] ... [catch] block around the data-fetching pass. *)
Definition run_getDataFromTree (rt : Runtime) (AppTree : string)
    (pageProps : object) (apolloClient : loc) : M unit :=
  try_catch
    (match react_ssr rt with
     | Normal getDataFromTree =>
         let tree :=
           AppTreeElement AppTree
             (<["apolloClient" := VClient apolloClient]> pageProps) in
         log (GetDataFromTree tree) ;;;
         external (getDataFromTree tree)
     | Throw e => throw e
     end)
    (fun error => log (ConsoleError "Error while running `getDataFromTree`" error)).

(** [context.apolloClient = ...] *)
Definition with_apolloClient (context : Context) (client : loc) : Context :=
  {| AppTree := AppTree context; res := res context;
     context_apolloClient := VClient client; query := query context |}.

(** [let pageProps = {}; if (PageComponent.getServerSideProps) pageProps =
    await PageComponent.getServerSideProps(context)] *)
Definition run_wrapped (PageComponent : PageComponent) (context : Context)
    : M (object * Context) :=
  match getServerSideProps PageComponent with
  | Some wrapped => external (wrapped context)
  | None => ret (∅, context)
  end.

(** [WithApollo.getServerSideProps] *)
Definition WithApollo_getServerSideProps (rt : Runtime)
    (apolloConfig : ApolloConfig) (PageComponent : PageComponent) (ssr : value)
    (context : Context) : M object :=
  let AppTree := AppTree context in
  apolloClient <~ initApolloClient rt apolloConfig VNull (Some context) ;;
  let context := with_apolloClient context apolloClient in
  wrapped_result <~ run_wrapped PageComponent context ;;
  let '(pageProps, context) := wrapped_result in
  returned <~
    (if negb (window_defined rt) then
       if response_finished context then ret (Some pageProps)
       else
         (if truthy ssr then
            run_getDataFromTree rt AppTree pageProps apolloClient ;;;
            log HeadRewind
          else ret tt) ;;;
         ret None
     else ret None) ;;
  match returned with
  | Some early => ret early
  | None =>
      apolloState <~ cache_extract apolloClient ;;
      ret (<["apolloState" := VData apolloState]> pageProps)
  end.

(** The decorated component: the function component and its static
    properties. *)
Record Decorated := {
  WithApollo_render : option value -> object -> M (Element Cache * option value);
  WithApollo_displayName : option string;
  WithApollo_hook : option (Context -> M object)
}.

(** [PageComponent.displayName || PageComponent.name || 'Component'] *)
Definition page_displayName (PageComponent : PageComponent) : string :=
  match displayName PageComponent with
  | Some d => if String.eqb d "" then
                if String.eqb (name PageComponent) "" then "Component"
                else name PageComponent
              else d
  | None => if String.eqb (name PageComponent) "" then "Component"
            else name PageComponent
  end.

(** The default export applied to a configuration, a page and the options
    object ([{ ssr = true } = {}]). *)
Definition withData (rt : Runtime) (apolloConfig : ApolloConfig)
    (PageComponent : PageComponent) (options : option object) : M Decorated :=
  let ssr := default_param (prop (default ∅ options) "ssr") (VBool true) in
  shown <~
    (if negb (String.eqb (NODE_ENV rt) "production") then
       let displayName := page_displayName PageComponent in
       (if String.eqb displayName "App" then
          log (ConsoleWarn "This withApollo HOC only works with PageComponents.")
        else ret tt) ;;;
       ret (Some ("withApollo(" ++ displayName ++ ")")%string)
     else ret None) ;;
  ret {| WithApollo_render := WithApollo rt apolloConfig PageComponent;
         WithApollo_displayName := shown;
         WithApollo_hook :=
           if truthy ssr || bool_decide (is_Some (getServerSideProps PageComponent))
           then Some (WithApollo_getServerSideProps rt apolloConfig PageComponent ssr)
           else None |}.
End WithData.

Arguments Context : clear implicits.
Arguments Runtime : clear implicits.
Arguments ApolloConfig : clear implicits.
Arguments PageComponent : clear implicits.
Arguments Decorated : clear implicits.

(** ** Vocabulary of the statements *)

Section Vocabulary.
Context {Cache : Type} `{!ApolloCache Cache}.

Abbreviation value := (value Cache).
Abbreviation object := (gmap string value).

(** The cache object [createCache()] evaluates to: none when the truthy
    [createCache] entry is not a function or does not return a cache, which
    is when [createCache().restore(...)] throws. *)
Definition made_cache (config : object) : option Cache :=
  match js_or (prop config "createCache") (VFunction createDefaultCache) with
  | VFunction g => match g tt with VCache c => Some c | _ => None end
  | _ => None
  end.

(** The options object [createApolloClient] hands to the constructor when
    [createCache()] is the cache [c]. *)
Definition passed_config (rt : Runtime Cache) (config : object)
    (initialState : value) (c : Cache) : object :=
  delete "createCache"
    (config_literal rt
       (VCache (restore c (js_or (default_param initialState (VData ∅)) (VData ∅))))
       config).

(** [createApolloClient] gets through: [createCache()] is a cache and the
    library's constructor accepts the options built from it. *)
Definition creation_ok (rt : Runtime Cache) (config : object)
    (initialState : value) : bool :=
  match made_cache config with
  | Some c =>
      match ApolloClient_invariant rt (passed_config rt config initialState c) with
      | None => true
      | Some _ => false
      end
  | None => false
  end.

(** The check at the head of the constructor of [apollo-client] 2: a link
    (an empty one is supplied when there are resolvers) and a cache are
    required. *)
Definition library_invariant (options : object) : option Error :=
  if truthy (js_or (prop options "link") (prop options "resolvers"))
     && truthy (prop options "cache")
  then None
  else Some (Thrown "Invariant Violation: you need to specify 'link' and 'cache'").

(** One call of [initApolloClient], followed by whatever code outside the
    module does to the client objects before the next call. *)
Record InitCall := {
  call_config : ApolloConfig Cache;
  call_initialState : value;
  call_context : option (Context Cache);
  call_then : External Cache unit
}.

(** A series of calls in one process; each call's completion is recorded and
    a call that throws does not stop the series. *)
Fixpoint init_each (rt : Runtime Cache) (calls : list InitCall) (w : World Cache)
    : list (Completion loc) * World Cache :=
  match calls with
  | [] => ([], w)
  | c :: rest =>
      let '(r, w1) :=
        initApolloClient rt (call_config c) (call_initialState c) (call_context c) w in
      let '(_, w2) := external (call_then c) w1 in
      let '(rs, w3) := init_each rt rest w2 in
      (r :: rs, w3)
  end.

(** The clients handed out by a series of calls. *)
Definition returned_clients (rs : list (Completion loc)) : list loc :=
  omap (fun r => match r with Normal l => Some l | Throw _ => None end) rs.

(** The events a computation appended to the trace. *)
Definition emitted (before after : World Cache) : list (Event Cache) :=
  drop (length (trace before)) (trace after).

(** The element [<AppTree pageProps={{ ...pageProps, apolloClient }} />]
    handed to [getDataFromTree]. *)
Definition pass_tree (AppTree : string) (pageProps : object) (client : loc)
    : Element Cache :=
  AppTreeElement AppTree (<["apolloClient" := VClient client]> pageProps).

(** The data-fetching pass over [tree], started on the client objects [h],
    throws [e] and leaves the client objects as [h']: either the import of
    [@apollo/react-ssr] fails, or [getDataFromTree] does. *)
Definition pass_throws (rt : Runtime Cache) (tree : Element Cache)
    (h : gmap loc (ApolloClient Cache)) (e : Error)
    (h' : gmap loc (ApolloClient Cache)) : Prop :=
  match react_ssr rt with
  | Normal getDataFromTree => getDataFromTree tree h = (Throw e, h')
  | Throw e' => e' = e /\ h' = h
  end.

(** What the pass appends to the trace before its error is logged. *)
Definition pass_call (rt : Runtime Cache) (tree : Element Cache) : list (Event Cache) :=
  match react_ssr rt with
  | Normal _ => [GetDataFromTree tree]
  | Throw _ => []
  end.

End Vocabulary.

(** ** Concrete scenarios, with the reference cache *)

(** A process that has just loaded the module. *)
Definition fresh_process : World InMemoryCache :=
  {| apolloClient := None; next_loc := 0; clients := ∅; trace := [] |}.

Definition network_error : Error := Thrown "Network error: failed to fetch".

(** A server whose data-fetching pass succeeds, one whose pass throws, and a
    browser. *)
Definition server_runtime : Runtime InMemoryCache :=
  {| window_defined := false; NODE_ENV := "production";
     react_ssr := Normal (fun _ h => (Normal tt, h));
     ApolloClient_invariant := library_invariant |}.

Definition failing_server : Runtime InMemoryCache :=
  {| window_defined := false; NODE_ENV := "production";
     react_ssr := Normal (fun _ h => (Throw network_error, h));
     ApolloClient_invariant := library_invariant |}.

Definition browser_runtime : Runtime InMemoryCache :=
  {| window_defined := true; NODE_ENV := "production";
     react_ssr := Normal (fun _ h => (Normal tt, h));
     ApolloClient_invariant := library_invariant |}.

(** [{ link: new HttpLink(...) }] and [{ link: ..., cache: new InMemoryCache() }] *)
Definition link_object : gmap string (value InMemoryCache) :=
  {[ "link" := VOpaque "HttpLink" ]}.

Definition link_config : ApolloConfig InMemoryCache := ConfigObject link_object.

Definition own_cache_config : ApolloConfig InMemoryCache :=
  ConfigObject (<["cache" := VCache {| data := ∅ |}]> link_object).

(** [{ link: ..., createCache: () => new InMemoryCache() }] *)
Definition factory_object : gmap string (value InMemoryCache) :=
  <["createCache" := VFunction (fun _ => VCache {| data := ∅ |})]> link_object.

(** A page without a hook of its own. *)
Definition plain_page : PageComponent InMemoryCache :=
  {| displayName := None; name := "Index"; getServerSideProps := None |}.

(** What a query of the page below writes into the cache. *)
Definition written : gmap string string := {[ "ROOT_QUERY" := "posts: []" ]}.

(** A page whose hook runs a query through [context.apolloClient], which
    writes the result into that client's cache. *)
Definition querying_page : PageComponent InMemoryCache :=
  {| displayName := None; name := "Posts";
     getServerSideProps := Some (fun ctx h =>
       (Normal ({[ "title" := VStr "Posts" ]}, ctx),
        match context_apolloClient ctx with
        | VClient l =>
            alter (fun c => {| cache := VCache {| data := written |};
                               options := options c |}) l h
        | _ => h
        end)) |}.

(** A request whose response is still open, and one already redirected. *)
Definition request : Context InMemoryCache :=
  {| AppTree := "App"; res := Some {| finished := false |};
     context_apolloClient := VUndefined; query := ∅ |}.

Definition redirected : Context InMemoryCache :=
  {| AppTree := "App"; res := Some {| finished := true |};
     context_apolloClient := VUndefined; query := ∅ |}.

(** Two calls of [initApolloClient] with nothing happening in between. *)
Definition two_calls : list (@InitCall InMemoryCache) :=
  let c := {| call_config := link_config; call_initialState := VNull;
              call_context := Some request;
              call_then := fun h => (Normal tt, h) |} in
  [c; c].

(** The world of a server once [initApolloClient] has run for a request. *)
Definition initialised (rt : Runtime InMemoryCache)
    (apolloConfig : ApolloConfig InMemoryCache) (ctx : Context InMemoryCache)
    : World InMemoryCache :=
  (initApolloClient rt apolloConfig VNull (Some ctx) fresh_process).2.

(** ... and once the wrapped hook has run as well. *)
Definition fetched (rt : Runtime InMemoryCache)
    (apolloConfig : ApolloConfig InMemoryCache)
    (PageComponent : PageComponent InMemoryCache) (ctx : Context InMemoryCache)
    : World InMemoryCache :=
  (run_wrapped PageComponent (with_apolloClient ctx 0)
     (initialised rt apolloConfig ctx)).2.

(** The client built from [link_object] on a server, before and after the
    query of [querying_page]. *)
Definition link_client : ApolloClient InMemoryCache :=
  {| cache := VCache {| data := ∅ |};
     options := <["cache" := VCache {| data := ∅ |}]>
                  (<["ssrMode" := VBool true]> link_object) |}.

Definition queried_client : ApolloClient InMemoryCache :=
  {| cache := VCache {| data := written |};
     options := <["cache" := VCache {| data := ∅ |}]>
                  (<["ssrMode" := VBool true]> link_object) |}.

(** ** Further vocabulary and scenarios *)

(** The warning of the decorator. *)
Definition App_warning {Cache : Type} : Event Cache :=
  ConsoleWarn "This withApollo HOC only works with PageComponents.".

(** A server whose data-fetching pass runs the queries of the tree through
    the client it finds in the page properties. *)
Definition fetching_server : Runtime InMemoryCache :=
  {| window_defined := false; NODE_ENV := "development";
     react_ssr := Normal (fun tree h =>
       match tree with
       | AppTreeElement _ pageProps =>
           match pageProps !! "apolloClient" with
           | Some (VClient l) =>
               (Normal tt,
                alter (fun c => {| cache := VCache {| data := written |};
                                   options := options c |}) l h)
           | _ => (Normal tt, h)
           end
       | _ => (Normal tt, h)
       end);
     ApolloClient_invariant := library_invariant |}.

(** A browser process in which a client has already been created. *)
Definition browser_client : ApolloClient InMemoryCache :=
  {| cache := VCache {| data := ∅ |};
     options := <["cache" := VCache {| data := ∅ |}]>
                  (<["ssrMode" := VBool false]> link_object) |}.

Definition visited_browser : World InMemoryCache :=
  {| apolloClient := Some 0; next_loc := 1;
     clients := {[ 0 := browser_client ]}; trace := [] |}.

(** The props a page is rendered with after its hook has run on the server. *)
Definition served_props : gmap string (value InMemoryCache) :=
  <["apolloState" := VData written]> {[ "title" := VStr "Posts" ]}.

(** ** Basic facts about the building blocks *)

Section Facts.
Context {Cache : Type} `{!ApolloCache Cache}.

Abbreviation value := (value Cache).
Abbreviation object := (gmap string value).

Implicit Types (rt : Runtime Cache) (w : World Cache) (config : object)
  (initialState : value).

Lemma default_param_data_idem (x : value) (d : gmap string string) :
  default_param (default_param x (VData d)) (VData d) = default_param x (VData d).
Proof. by destruct x. Qed.

(** [createApolloClient] up to the constructor: what remains is
    [new ApolloClient] on [passed_config]. *)
Lemma createApolloClient_constructs rt config initialState w c :
  made_cache config = Some c ->
  createApolloClient rt config initialState w
  = new_ApolloClient rt (passed_config rt config initialState c) w.
Proof.
  unfold createApolloClient, made_cache, passed_config, bind, call, call_restore.
  destruct (js_or _ _) as [| | | | | | | |g]; try discriminate.
  simpl. unfold ret. destruct (g tt); try discriminate.
  intros [= ->]. reflexivity.
Qed.

(** [createApolloClient] written out: when the constructor accepts the
    options it allocates exactly one client, at the next free location, from
    [passed_config]. *)
Lemma createApolloClient_made rt config initialState w c :
  made_cache config = Some c ->
  ApolloClient_invariant rt (passed_config rt config initialState c) = None ->
  createApolloClient rt config initialState w =
    (Normal (next_loc w),
     {| apolloClient := apolloClient w;
        next_loc := S (next_loc w);
        clients :=
          <[next_loc w :=
              {| cache := prop (passed_config rt config initialState c) "cache";
                 options := passed_config rt config initialState c |}]> (clients w);
        trace := trace w |}).
Proof.
  intros Hm Hacc. rewrite (createApolloClient_constructs _ _ _ _ c Hm).
  unfold new_ApolloClient. by rewrite Hacc.
Qed.

(** ... when the constructor rejects them it throws the constructor's error
    and changes nothing ... *)
Lemma createApolloClient_rejected rt config initialState w c e :
  made_cache config = Some c ->
  ApolloClient_invariant rt (passed_config rt config initialState c) = Some e ->
  createApolloClient rt config initialState w = (Throw e, w).
Proof.
  intros Hm Hrej. rewrite (createApolloClient_constructs _ _ _ _ c Hm).
  unfold new_ApolloClient. by rewrite Hrej.
Qed.

(** ... and without a cache from [createCache()] it throws a [TypeError]
    before reaching the constructor. *)
Lemma createApolloClient_throws rt config initialState w :
  made_cache config = None ->
  exists e, createApolloClient rt config initialState w = (Throw e, w).
Proof.
  unfold createApolloClient, made_cache, bind, call, call_restore, throw, ret.
  destruct (js_or _ _) as [| | | | | | | |g]; intros Hm; eauto.
  destruct (g tt); try discriminate; eauto.
Qed.

Lemma creation_ok_spec rt config initialState :
  creation_ok rt config initialState = true
  <-> exists c, made_cache config = Some c
             /\ ApolloClient_invariant rt (passed_config rt config initialState c) = None.
Proof.
  unfold creation_ok. destruct (made_cache config) as [c|].
  - destruct (ApolloClient_invariant rt _) eqn:Hi.
    + split; [done|]. intros (c' & [= <-] & ?). congruence.
    + split; [eauto|done].
  - split; [done|]. by intros (c & ? & _).
Qed.

End Facts.

(** ** The claims *)

Section Claims.
Context {Cache : Type} `{!ApolloCache Cache}.

Abbreviation value := (value Cache).
Abbreviation object := (gmap string value).

Implicit Types (rt : Runtime Cache) (w : World Cache) (config : object)
  (initialState : value) (apolloConfig : ApolloConfig Cache)
  (context : option (Context Cache)).

Lemma createApolloClient_default rt config initialState :
  createApolloClient rt config (default_param initialState (VData ∅))
  = createApolloClient rt config initialState.
Proof.
  unfold createApolloClient. by rewrite default_param_data_idem.
Qed.

(** Every outcome of [createApolloClient]: one allocation at the next free
    location and nothing else touched, or a throw that leaves the world as it
    was. *)
Lemma createApolloClient_outcome rt config initialState w :
  (exists w', createApolloClient rt config initialState w = (Normal (next_loc w), w')
     /\ next_loc w' = S (next_loc w)
     /\ apolloClient w' = apolloClient w
     /\ trace w' = trace w
     /\ creation_ok rt config initialState = true)
  \/ (exists e, createApolloClient rt config initialState w = (Throw e, w)
        /\ creation_ok rt config initialState = false).
Proof.
  unfold creation_ok.
  destruct (made_cache config) as [c|] eqn:Hm.
  - destruct (ApolloClient_invariant rt (passed_config rt config initialState c))
      as [e|] eqn:Hi.
    + right. exists e. split; [by apply (createApolloClient_rejected _ _ _ _ c)|done].
    + left. eexists. split; [by apply (createApolloClient_made _ _ _ _ c)|]. simpl. eauto.
  - right. destruct (createApolloClient_throws rt config initialState w Hm) as [e He].
    eauto.
Qed.

Lemma initApolloClient_server rt apolloConfig initialState context w :
  window_defined rt = false ->
  initApolloClient rt apolloConfig initialState context w
  = createApolloClient rt (resolve_config apolloConfig context) initialState w.
Proof.
  intros Hs. unfold initApolloClient. rewrite Hs. simpl.
  by rewrite createApolloClient_default.
Qed.

Lemma external_world {A} (f : External Cache A) w :
  next_loc (external f w).2 = next_loc w
  /\ apolloClient (external f w).2 = apolloClient w
  /\ trace (external f w).2 = trace w.
Proof. unfold external. by destruct (f (clients w)). Qed.

Lemma createApolloClient_set_handle rt config initialState w h :
  createApolloClient rt config initialState (set_apolloClient h w)
  = let '(r, w') := createApolloClient rt config initialState w in
    (r, set_apolloClient h w').
Proof.
  unfold createApolloClient, bind, call, call_restore, new_ApolloClient, throw, ret.
  destruct (js_or _ _) as [| | | | | | | |g]; try reflexivity.
  destruct (g tt); try reflexivity.
  by destruct (ApolloClient_invariant rt _).
Qed.

(** In a series of server-side calls the clients handed out are allocated at
    increasing locations. *)
Lemma init_each_server rt calls w :
  window_defined rt = false ->
  let out := init_each rt calls w in
  next_loc w <= next_loc out.2
  /\ Forall (fun l => next_loc w <= l < next_loc out.2) (returned_clients out.1)
  /\ NoDup (returned_clients out.1)
  /\ apolloClient out.2 = apolloClient w.
Proof.
  intros Hs. revert w. induction calls as [|c rest IH]; intros w; simpl.
  - repeat split; [lia | constructor | constructor].
  - rewrite initApolloClient_server by done.
    destruct (createApolloClient_outcome rt
                (resolve_config (call_config c) (call_context c))
                (call_initialState c) w)
      as [(w1 & -> & Hn & Hh & _) | (e & -> & _)].
    + destruct (external_world (call_then c) w1) as (En & Eh & _).
      destruct (external (call_then c) w1) as [r2 w2]. simpl in En, Eh.
      specialize (IH w2). destruct (init_each rt rest w2) as [rs w3].
      simpl in *. destruct IH as (Hle & Hall & Hnd & Hh3).
      repeat split.
      * lia.
      * constructor; [lia|]. eapply Forall_impl; [exact Hall|]. simpl. lia.
      * constructor; [|done]. intros Hin.
        rewrite Forall_forall in Hall. apply Hall in Hin. lia.
      * congruence.
    + destruct (external_world (call_then c) w) as (En & Eh & _).
      destruct (external (call_then c) w) as [r2 w2]. simpl in En, Eh.
      specialize (IH w2). destruct (init_each rt rest w2) as [rs w3].
      simpl in *. destruct IH as (Hle & Hall & Hnd & Hh3).
      repeat split; [lia | | done | congruence].
      eapply Forall_impl; [exact Hall|]. simpl. lia.
Qed.

(** C1.  In a server execution context ([window] undefined) every call of
    [initApolloClient] is exactly a call of [createApolloClient] on the
    resolved configuration; the process-wide handle is neither read (the
    outcome is the same whatever it holds) nor written; when [createCache()]
    is a cache and the library's constructor accepts the options, the call
    returns the client allocated at the next free location; and in any series
    of such calls, whatever outside code does to the client objects in
    between, no client is handed out twice. *)
Theorem initApolloClient_server_fresh rt :
  window_defined rt = false ->
  (forall apolloConfig initialState context w,
     initApolloClient rt apolloConfig initialState context w
     = createApolloClient rt (resolve_config apolloConfig context) initialState w)
  /\ (forall apolloConfig initialState context w h,
        initApolloClient rt apolloConfig initialState context (set_apolloClient h w)
        = let '(r, w') := initApolloClient rt apolloConfig initialState context w in
          (r, set_apolloClient h w'))
  /\ (forall apolloConfig initialState context w,
        creation_ok rt (resolve_config apolloConfig context) initialState = true ->
        exists w',
          initApolloClient rt apolloConfig initialState context w
          = (Normal (next_loc w), w')
          /\ next_loc w' = S (next_loc w)
          /\ is_Some (clients w' !! next_loc w))
  /\ (forall calls w,
        NoDup (returned_clients (init_each rt calls w).1)
        /\ apolloClient (init_each rt calls w).2 = apolloClient w).
Proof.
  intros Hs. split; [|split; [|split]].
  - intros. by apply initApolloClient_server.
  - intros. rewrite !initApolloClient_server by done.
    apply createApolloClient_set_handle.
  - intros apolloConfig initialState context w Hok.
    rewrite initApolloClient_server by done.
    apply creation_ok_spec in Hok as (c & Hc & Hacc).
    rewrite (createApolloClient_made _ _ _ _ c Hc Hacc).
    eexists. split; [reflexivity|]. simpl. split; [done|].
    rewrite lookup_insert_eq. eauto.
  - intros calls w. pose proof (init_each_server rt calls w Hs) as (_ & _ & ? & ?).
    done.
Qed.

Lemma initApolloClient_browser_existing rt apolloConfig initialState context w c :
  window_defined rt = true ->
  apolloClient w = Some c ->
  initApolloClient rt apolloConfig initialState context w = (Normal c, w).
Proof.
  intros Hb Hc. unfold initApolloClient, bind, gets. rewrite Hb. simpl.
  by rewrite Hc.
Qed.

Lemma initApolloClient_browser_create rt apolloConfig initialState context w :
  window_defined rt = true ->
  apolloClient w = None ->
  initApolloClient rt apolloConfig initialState context w
  = let '(r, w') :=
      createApolloClient rt (resolve_config apolloConfig context) initialState w in
    (r, match r with
        | Normal created => set_apolloClient (Some created) w'
        | Throw _ => w'
        end).
Proof.
  intros Hb Hc. unfold initApolloClient, bind, gets. rewrite Hb. simpl.
  rewrite Hc, createApolloClient_default.
  by destruct (createApolloClient _ _ _ w) as [[l|e] w'].
Qed.

(** In a series of browser-side calls the handle, once set, is what every
    call returns, and at most one client is ever allocated. *)
Lemma init_each_browser rt calls w :
  window_defined rt = true ->
  let out := init_each rt calls w in
  (forall l, l ∈ returned_clients out.1 -> apolloClient out.2 = Some l)
  /\ (forall c, apolloClient w = Some c ->
        apolloClient out.2 = Some c /\ next_loc out.2 = next_loc w
        /\ Forall (fun r => r = Normal c) out.1)
  /\ next_loc w <= next_loc out.2 <= S (next_loc w).
Proof.
  intros Hb. revert w. induction calls as [|c rest IH]; intros w; simpl.
  - split; [|split]; [|auto|lia].
    intros l Hl. by apply elem_of_nil in Hl.
  - destruct (apolloClient w) as [cur|] eqn:Hcur.
    + rewrite (initApolloClient_browser_existing _ _ _ _ _ cur) by done.
      destruct (external_world (call_then c) w) as (En & Eh & _).
      destruct (external (call_then c) w) as [r2 w2]. simpl in En, Eh.
      specialize (IH w2). destruct (init_each rt rest w2) as [rs w3].
      simpl in *. destruct IH as (Ha & Hb' & Hc).
      destruct (Hb' cur) as (H1 & H2 & H3); [congruence|].
      split; [|split]; [| |lia].
      * intros l [->|Hl]%elem_of_cons; [done|]. by apply Ha.
      * intros c0 [= <-]. split; [done|]. split; [congruence|].
        by constructor.
    + rewrite initApolloClient_browser_create by done.
      destruct (createApolloClient_outcome rt
                  (resolve_config (call_config c) (call_context c))
                  (call_initialState c) w)
        as [(w1 & -> & Hn & Hh & _) | (e & -> & _)].
      * destruct (external_world (call_then c) (set_apolloClient (Some (next_loc w)) w1))
          as (En & Eh & _).
        destruct (external (call_then c) _) as [r2 w2]. simpl in En, Eh.
        specialize (IH w2). destruct (init_each rt rest w2) as [rs w3].
        simpl in *. destruct IH as (Ha & Hb' & Hc).
        destruct (Hb' (next_loc w)) as (H1 & H2 & H3); [done|].
        split; [|split]; [| |lia].
        -- intros l [->|Hl]%elem_of_cons; [done|]. by apply Ha.
        -- intros c0 [=].
      * destruct (external_world (call_then c) w) as (En & Eh & _).
        destruct (external (call_then c) w) as [r2 w2]. simpl in En, Eh.
        specialize (IH w2). destruct (init_each rt rest w2) as [rs w3].
        simpl in *. destruct IH as (Ha & Hb' & Hc).
        split; [|split]; [| |lia].
        -- intros l Hl. by apply Ha.
        -- intros c0 [=].
Qed.

(** C2.  In a browser execution context a non-null handle is returned as it
    is, whatever the arguments, and the world is left unchanged (the handle
    is never reassigned); with a null handle the call is [createApolloClient]
    followed by storing the created client in the handle, so that, when
    [createCache()] is a cache and the library's constructor accepts the
    options, the handle then holds a newly allocated client object; and in
    any series
    of calls every call that returns a client returns the very client the
    handle ends up holding, so all of them return the same instance, and at
    most one client is ever created. *)
Theorem initApolloClient_browser_reuse rt :
  window_defined rt = true ->
  (forall apolloConfig initialState context w c,
     apolloClient w = Some c ->
     initApolloClient rt apolloConfig initialState context w = (Normal c, w))
  /\ (forall apolloConfig initialState context w,
        apolloClient w = None ->
        initApolloClient rt apolloConfig initialState context w
        = let '(r, w') :=
            createApolloClient rt (resolve_config apolloConfig context) initialState w in
          (r, match r with
              | Normal created => set_apolloClient (Some created) w'
              | Throw _ => w'
              end))
  /\ (forall apolloConfig initialState context w,
        apolloClient w = None ->
        creation_ok rt (resolve_config apolloConfig context) initialState = true ->
        exists w',
          initApolloClient rt apolloConfig initialState context w
          = (Normal (next_loc w), w')
          /\ apolloClient w' = Some (next_loc w)
          /\ is_Some (clients w' !! next_loc w))
  /\ (forall calls w,
        let out := init_each rt calls w in
        (forall l, l ∈ returned_clients out.1 -> apolloClient out.2 = Some l)
        /\ (forall l l', l ∈ returned_clients out.1 ->
                         l' ∈ returned_clients out.1 -> l = l')
        /\ (forall c, apolloClient w = Some c ->
              apolloClient out.2 = Some c /\ Forall (fun r => r = Normal c) out.1)
        /\ next_loc out.2 <= S (next_loc w)).
Proof.
  intros Hb. split; [|split; [|split]].
  - intros. by apply initApolloClient_browser_existing.
  - intros. by apply initApolloClient_browser_create.
  - intros apolloConfig initialState context w Hnone Hok.
    rewrite initApolloClient_browser_create by done.
    apply creation_ok_spec in Hok as (c & Hc & Hacc).
    rewrite (createApolloClient_made _ _ _ _ c Hc Hacc).
    eexists. split; [reflexivity|]. simpl. split; [done|].
    rewrite lookup_insert_eq. eauto.
  - intros calls w.
    pose proof (init_each_browser rt calls w Hb) as (Ha & Hsome & Hn).
    simpl. split; [done|]. split; [|split].
    + intros l l' Hl Hl'. apply Ha in Hl, Hl'. congruence.
    + intros c Hc. by destruct (Hsome c Hc) as (? & _ & ?).
    + lia.
Qed.

(** *** The pre-render hook *)

Lemma initApolloClient_frame rt apolloConfig initialState context w :
  trace (initApolloClient rt apolloConfig initialState context w).2 = trace w.
Proof.
  unfold initApolloClient, bind, gets.
  destruct (window_defined rt); simpl.
  - destruct (apolloClient w); [done|].
    destruct (createApolloClient_outcome rt (resolve_config apolloConfig context)
                (default_param initialState (VData ∅)) w)
      as [(w1 & -> & _ & _ & Ht & _) | (e & -> & _)]; done.
  - destruct (createApolloClient_outcome rt (resolve_config apolloConfig context)
                (default_param initialState (VData ∅)) w)
      as [(w1 & -> & _ & _ & Ht & _) | (e & -> & _)]; done.
Qed.

Lemma run_wrapped_frame (PageComponent : PageComponent Cache)
    (ctx : Context Cache) w :
  trace (run_wrapped PageComponent ctx w).2 = trace w.
Proof.
  unfold run_wrapped. destruct (getServerSideProps PageComponent) as [f|]; [|done].
  apply external_world.
Qed.

Lemma cache_extract_frame (l : loc) w : (cache_extract l w).2 = w.
Proof.
  unfold cache_extract, bind, gets, ret, throw.
  destruct (cache <$> clients w !! l) as [[]|]; reflexivity.
Qed.

Lemma cache_extract_cache (l : loc) w client k :
  clients w !! l = Some client -> cache client = VCache k ->
  cache_extract l w = (Normal (extract k), w).
Proof.
  intros Hl Hk. unfold cache_extract, bind, gets, ret. rewrite Hl. simpl.
  by rewrite Hk.
Qed.

(** The [try]/[catch] block never throws; this is all it does. *)
Lemma run_getDataFromTree_outcome rt AppTree (pageProps : object) (l : loc) w :
  exists w',
    run_getDataFromTree rt AppTree pageProps l w = (Normal tt, w')
    /\ match react_ssr rt with
       | Throw e =>
           clients w' = clients w
           /\ trace w' = trace w ++ [ConsoleError "Error while running `getDataFromTree`" e]
       | Normal getDataFromTree =>
           let tree := pass_tree AppTree pageProps l in
           match getDataFromTree tree (clients w) with
           | (Normal _, h) =>
               clients w' = h /\ trace w' = trace w ++ [GetDataFromTree tree]
           | (Throw e, h) =>
               clients w' = h
               /\ trace w' = trace w ++ [GetDataFromTree tree;
                     ConsoleError "Error while running `getDataFromTree`" e]
           end
       end.
Proof.
  unfold run_getDataFromTree, try_catch, pass_tree.
  destruct (react_ssr rt) as [g|e]; simpl.
  - unfold bind, log, modify, external. simpl.
    destruct (g _ (clients w)) as [[[]|e] h]; simpl.
    + eexists. split; [reflexivity|]. done.
    + eexists. split; [reflexivity|]. simpl. by rewrite <- app_assoc.
  - eexists. split; [reflexivity|]. done.
Qed.

(** Case analysis on the extraction that ends the hook: it leaves the world
    as it is. *)
Ltac extraction_cases l :=
  match goal with
  | |- context [cache_extract l ?w3] =>
      let Hframe := fresh "Hframe" in
      let s := fresh "s" in
      let e := fresh "e" in
      let w4 := fresh "w" in
      pose proof (cache_extract_frame l w3) as Hframe;
      destruct (cache_extract l w3) as [[s|e] w4]; simpl in Hframe; subst w4
  end.

(** The hook once the client is initialised and the wrapped hook has
    returned: the early return, or the optional pass followed by the
    extraction. *)
Lemma getServerSideProps_steps rt apolloConfig (PageComponent : PageComponent Cache)
    (ssr : value) (ctx ctx2 : Context Cache) w (l : loc) w1 (pageProps : object) w2 :
  initApolloClient rt apolloConfig VNull (Some ctx) w = (Normal l, w1) ->
  run_wrapped PageComponent (with_apolloClient ctx l) w1
    = (Normal (pageProps, ctx2), w2) ->
  WithApollo_getServerSideProps rt apolloConfig PageComponent ssr ctx w
  = if negb (window_defined rt) && response_finished ctx2 then (Normal pageProps, w2)
    else
      (apolloState <~ cache_extract l ;;
       ret (<["apolloState" := VData apolloState]> pageProps))
        (if negb (window_defined rt) && truthy ssr
         then (log HeadRewind
                 (run_getDataFromTree rt (AppTree ctx) pageProps l w2).2).2
         else w2).
Proof.
  intros Hinit Hwr. unfold WithApollo_getServerSideProps.
  unfold bind at 1. rewrite Hinit. unfold bind at 1. rewrite Hwr.
  destruct (window_defined rt); simpl; [reflexivity|].
  destruct (response_finished ctx2); simpl; [reflexivity|].
  destruct (truthy ssr); simpl; [|reflexivity].
  destruct (run_getDataFromTree_outcome rt (AppTree ctx) pageProps l w2)
    as (w3 & Hrun & _).
  unfold bind at 1. unfold bind at 1. unfold bind at 1. rewrite Hrun. reflexivity.
Qed.

(** C3.  Server side with [ssr] on: once the client is initialised and the
    wrapped hook has returned without finishing the response, an error [e]
    thrown by the data-fetching pass (by [getDataFromTree], or by the import
    that provides it) is logged with [console.error] and goes no further:
    the hook completes normally with the page properties extended by the
    snapshot extracted from the client's cache as the failed pass left it. *)
Theorem getDataFromTree_error_is_caught rt apolloConfig
    (PageComponent : PageComponent Cache) (ssr : value) (ctx ctx2 : Context Cache)
    w (l : loc) w1 (pageProps : object) w2 (e : Error)
    (h3 : gmap loc (ApolloClient Cache)) (client : ApolloClient Cache) (k : Cache) :
  window_defined rt = false ->
  truthy ssr = true ->
  initApolloClient rt apolloConfig VNull (Some ctx) w = (Normal l, w1) ->
  run_wrapped PageComponent (with_apolloClient ctx l) w1
    = (Normal (pageProps, ctx2), w2) ->
  response_finished ctx2 = false ->
  pass_throws rt (pass_tree (AppTree ctx) pageProps l) (clients w2) e h3 ->
  h3 !! l = Some client ->
  cache client = VCache k ->
  exists w',
    WithApollo_getServerSideProps rt apolloConfig PageComponent ssr ctx w
    = (Normal (<["apolloState" := VData (extract k)]> pageProps), w')
    /\ clients w' = h3
    /\ emitted w w'
       = pass_call rt (pass_tree (AppTree ctx) pageProps l)
         ++ [ConsoleError "Error while running `getDataFromTree`" e; HeadRewind].
Proof.
  intros Hs Hssr Hinit Hwr Hfin Hthrow Hl Hk.
  rewrite (getServerSideProps_steps _ _ _ _ _ _ _ _ _ _ _ Hinit Hwr).
  rewrite Hs, Hfin, Hssr. simpl.
  destruct (run_getDataFromTree_outcome rt (AppTree ctx) pageProps l w2)
    as (w3 & Hrun & Hw3).
  rewrite Hrun. simpl.
  assert (Ht : trace w2 = trace w).
  { pose proof (initApolloClient_frame rt apolloConfig VNull (Some ctx) w) as H1.
    pose proof (run_wrapped_frame PageComponent (with_apolloClient ctx l) w1) as H2.
    rewrite Hinit in H1. rewrite Hwr in H2. simpl in *. congruence. }
  assert (Hw : clients w3 = h3
               /\ trace w3 = trace w
                     ++ pass_call rt (pass_tree (AppTree ctx) pageProps l)
                     ++ [ConsoleError "Error while running `getDataFromTree`" e]).
  { unfold pass_throws, pass_call in *.
    destruct (react_ssr rt) as [g|e'].
    - simpl in Hw3. rewrite Hthrow in Hw3. destruct Hw3 as [-> ->].
      by rewrite Ht.
    - destruct Hthrow as [-> ->]. destruct Hw3 as [-> ->]. by rewrite Ht. }
  destruct Hw as [Hc3 Ht3].
  eexists. unfold bind.
  erewrite cache_extract_cache; [|simpl; rewrite Hc3; exact Hl|exact Hk].
  split; [reflexivity|]. simpl. split; [done|].
  unfold emitted. simpl. rewrite Ht3, <- !app_assoc.
  by rewrite drop_app_length.
Qed.

(** C9.  Server side: when the response is finished once the wrapped hook has
    returned, the hook returns the wrapped page properties as they are,
    nothing is appended to the trace (no data-fetching pass, no log) and no
    [apolloState] is added. *)
Theorem finished_response_returns_pageProps rt apolloConfig
    (PageComponent : PageComponent Cache) (ssr : value) (ctx ctx2 : Context Cache)
    w (l : loc) w1 (pageProps : object) w2 :
  window_defined rt = false ->
  initApolloClient rt apolloConfig VNull (Some ctx) w = (Normal l, w1) ->
  run_wrapped PageComponent (with_apolloClient ctx l) w1
    = (Normal (pageProps, ctx2), w2) ->
  response_finished ctx2 = true ->
  WithApollo_getServerSideProps rt apolloConfig PageComponent ssr ctx w
    = (Normal pageProps, w2)
  /\ emitted w w2 = []
  /\ (getServerSideProps PageComponent = None -> pageProps = ∅).
Proof.
  intros Hs Hinit Hwr Hfin.
  rewrite (getServerSideProps_steps _ _ _ _ _ _ _ _ _ _ _ Hinit Hwr).
  rewrite Hs, Hfin. simpl. split; [done|]. split.
  - pose proof (initApolloClient_frame rt apolloConfig VNull (Some ctx) w) as H1.
    pose proof (run_wrapped_frame PageComponent (with_apolloClient ctx l) w1) as H2.
    rewrite Hinit in H1. rewrite Hwr in H2. simpl in *.
    unfold emitted. rewrite H2, H1. apply drop_all.
  - intros Hnone. unfold run_wrapped in Hwr. rewrite Hnone in Hwr.
    by injection Hwr as <- _ _.
Qed.

(** Past the early return, the hook ends with the extraction. *)
Lemma getServerSideProps_extracts rt apolloConfig
    (PageComponent : PageComponent Cache) (ssr : value) (ctx ctx2 : Context Cache)
    w (l : loc) w1 (pageProps : object) w2 (r : Completion object) w'
    (client : ApolloClient Cache) (k : Cache) :
  initApolloClient rt apolloConfig VNull (Some ctx) w = (Normal l, w1) ->
  run_wrapped PageComponent (with_apolloClient ctx l) w1
    = (Normal (pageProps, ctx2), w2) ->
  window_defined rt = true \/ response_finished ctx2 = false ->
  WithApollo_getServerSideProps rt apolloConfig PageComponent ssr ctx w = (r, w') ->
  clients w' !! l = Some client ->
  cache client = VCache k ->
  r = Normal (<["apolloState" := VData (extract k)]> pageProps)
  /\ (getServerSideProps PageComponent = None -> pageProps = ∅).
Proof.
  intros Hinit Hwr Hnot Hhook Hl Hk. split.
  - rewrite (getServerSideProps_steps _ _ _ _ _ _ _ _ _ _ _ Hinit Hwr) in Hhook.
    assert (negb (window_defined rt) && response_finished ctx2 = false) as Hc.
    { destruct Hnot as [-> | ->]; [done|]. by rewrite andb_false_r. }
    rewrite Hc in Hhook. unfold bind in Hhook.
    match type of Hhook with context [cache_extract l ?w3] =>
      pose proof (cache_extract_frame l w3) as Hframe;
      destruct (cache_extract l w3) as [[s|e] w4] eqn:Hex; simpl in Hframe; subst w4
    end.
    + injection Hhook as <- <-.
      match type of Hex with cache_extract l ?w3 = _ =>
        rewrite (cache_extract_cache l w3 client k Hl Hk) in Hex
      end.
      by injection Hex as <-.
    + injection Hhook as <- <-.
      match type of Hex with cache_extract l ?w3 = _ =>
        rewrite (cache_extract_cache l w3 client k Hl Hk) in Hex
      end.
      discriminate.
  - intros Hnone. unfold run_wrapped in Hwr. rewrite Hnone in Hwr.
    by injection Hwr as <- _ _.
Qed.

(** C5 (amended).  Whenever the hook is not cut short by a finished
    response on the server, its result is the page properties produced by the
    wrapped hook (the empty object when the page has none) extended with an
    [apolloState] field holding the extraction of the client's cache. *)
Theorem getServerSideProps_merges_snapshot rt apolloConfig
    (PageComponent : PageComponent Cache) (ssr : value) (ctx ctx2 : Context Cache)
    w (l : loc) w1 (pageProps : object) w2 (r : Completion object) w'
    (client : ApolloClient Cache) (k : Cache) :
  initApolloClient rt apolloConfig VNull (Some ctx) w = (Normal l, w1) ->
  run_wrapped PageComponent (with_apolloClient ctx l) w1
    = (Normal (pageProps, ctx2), w2) ->
  window_defined rt = true \/ response_finished ctx2 = false ->
  WithApollo_getServerSideProps rt apolloConfig PageComponent ssr ctx w = (r, w') ->
  clients w' !! l = Some client ->
  cache client = VCache k ->
  r = Normal (<["apolloState" := VData (extract k)]> pageProps)
  /\ (getServerSideProps PageComponent = None -> pageProps = ∅).
Proof.
  intros. eapply getServerSideProps_extracts; eauto.
Qed.

(** Whatever happens, the hook only appends to the trace, and a call of
    [getDataFromTree] appears there only with [ssr] on and [window]
    undefined. *)
Lemma getServerSideProps_emitted rt apolloConfig (PageComponent : PageComponent Cache)
    (ssr : value) (ctx : Context Cache) w :
  exists evs,
    trace (WithApollo_getServerSideProps rt apolloConfig PageComponent ssr ctx w).2
    = trace w ++ evs
    /\ (forall tree, GetDataFromTree tree ∈ evs ->
          truthy ssr = true /\ window_defined rt = false).
Proof.
  pose proof (initApolloClient_frame rt apolloConfig VNull (Some ctx) w) as H1.
  destruct (initApolloClient rt apolloConfig VNull (Some ctx) w) as [[l|e] w1] eqn:Hinit;
    simpl in H1.
  2:{ exists []. unfold WithApollo_getServerSideProps, bind. rewrite Hinit. simpl.
      rewrite app_nil_r. split; [done|]. intros tree Hin. by apply elem_of_nil in Hin. }
  pose proof (run_wrapped_frame PageComponent (with_apolloClient ctx l) w1) as H2.
  destruct (run_wrapped PageComponent (with_apolloClient ctx l) w1)
    as [[[pageProps ctx2]|e] w2] eqn:Hwr; simpl in H2.
  2:{ exists []. unfold WithApollo_getServerSideProps, bind. rewrite Hinit, Hwr. simpl.
      rewrite app_nil_r. split; [congruence|].
      intros tree Hin. by apply elem_of_nil in Hin. }
  rewrite (getServerSideProps_steps _ _ _ _ _ _ _ _ _ _ _ Hinit Hwr).
  destruct (negb (window_defined rt) && response_finished ctx2) eqn:Hearly.
  { exists []. simpl. rewrite app_nil_r. split; [congruence|].
    intros tree Hin. by apply elem_of_nil in Hin. }
  unfold bind.
  extraction_cases l.
  all: destruct (negb (window_defined rt) && truthy ssr) eqn:Hpass.
  all: try (exists []; simpl; rewrite app_nil_r; split; [congruence|];
            intros tree Hin; by apply elem_of_nil in Hin).
  all: apply andb_true_iff in Hpass as [Hw%negb_true_iff Hssr].
  all: destruct (run_getDataFromTree_outcome rt (AppTree ctx) pageProps l w2)
         as (w3 & Hrun & Hw3); rewrite Hrun; simpl.
  all: destruct (react_ssr rt) as [g|e'];
         [simpl in Hw3; destruct (g _ (clients w2)) as [[[]|e''] h]|];
         destruct Hw3 as [_ ->]; rewrite H2, H1, <- app_assoc;
         eexists; (split; [reflexivity|done]).
Qed.

(** C4.  Decorating always succeeds; the decorated component has a
    [getServerSideProps] hook exactly when [ssr] (true when the options leave
    it undefined) is truthy or the wrapped page has a hook of its own, and
    that hook is [WithApollo.getServerSideProps] for this [ssr]; a run of the
    hook calls [getDataFromTree] only if [ssr] is truthy and [window] is
    undefined, and it does call it when moreover the client is initialised,
    the wrapped hook returns without finishing the response, and the import
    of the pass succeeds. *)
Theorem ssr_flag_controls_pass rt apolloConfig (PageComponent : PageComponent Cache)
    (options : option object) w :
  let ssr := default_param (prop (default ∅ options) "ssr") (VBool true) in
  exists D w',
    withData rt apolloConfig PageComponent options w = (Normal D, w')
    /\ (is_Some (WithApollo_hook D)
        <-> truthy ssr = true \/ is_Some (getServerSideProps PageComponent))
    /\ (forall hook, WithApollo_hook D = Some hook ->
          hook = WithApollo_getServerSideProps rt apolloConfig PageComponent ssr)
    /\ (forall hook ctx w1 tree,
          WithApollo_hook D = Some hook ->
          GetDataFromTree tree ∈ emitted w1 (hook ctx w1).2 ->
          truthy ssr = true /\ window_defined rt = false)
    /\ (forall hook ctx ctx2 w0 l w1 pageProps w2 getDataFromTree,
          WithApollo_hook D = Some hook ->
          truthy ssr = true -> window_defined rt = false ->
          initApolloClient rt apolloConfig VNull (Some ctx) w0 = (Normal l, w1) ->
          run_wrapped PageComponent (with_apolloClient ctx l) w1
            = (Normal (pageProps, ctx2), w2) ->
          response_finished ctx2 = false ->
          react_ssr rt = Normal getDataFromTree ->
          GetDataFromTree (pass_tree (AppTree ctx) pageProps l)
            ∈ emitted w0 (hook ctx w0).2).
Proof.
  intros ssr.
  assert (Hhook : forall D,
    WithApollo_hook D
    = (if truthy ssr || bool_decide (is_Some (getServerSideProps PageComponent))
       then Some (WithApollo_getServerSideProps rt apolloConfig PageComponent ssr)
       else None) ->
    (is_Some (WithApollo_hook D)
        <-> truthy ssr = true \/ is_Some (getServerSideProps PageComponent))
    /\ (forall hook, WithApollo_hook D = Some hook ->
          hook = WithApollo_getServerSideProps rt apolloConfig PageComponent ssr)).
  { intros D ->. split.
    - destruct (truthy ssr); simpl.
      + split; eauto.
      + case_bool_decide as Hd; split.
        * eauto.
        * eauto.
        * intros [? [=]].
        * intros [[=]|?]. done.
    - intros hook. destruct (_ || _); [|done]. by intros [= <-]. }
  assert (Hrun : exists D w',
    withData rt apolloConfig PageComponent options w = (Normal D, w')
    /\ WithApollo_hook D
       = (if truthy ssr || bool_decide (is_Some (getServerSideProps PageComponent))
          then Some (WithApollo_getServerSideProps rt apolloConfig PageComponent ssr)
          else None)).
  { unfold withData, bind, ret, log, modify. fold ssr.
    destruct (negb (NODE_ENV rt =? "production")%string); simpl.
    - destruct (page_displayName PageComponent =? "App")%string; simpl; eauto.
    - eauto. }
  destruct Hrun as (D & w' & Hwith & HD).
  destruct (Hhook D HD) as [Hiff Heq].
  exists D, w'. split; [done|]. split; [done|]. split; [done|]. split.
  - intros hook ctx w1 tree Hh Hin. rewrite (Heq hook Hh) in Hin.
    destruct (getServerSideProps_emitted rt apolloConfig PageComponent ssr ctx w1)
      as (evs & Ht & Hevs).
    unfold emitted in Hin. rewrite Ht, drop_app_length in Hin. by apply Hevs in Hin.
  - intros hook ctx ctx2 w0 l w1 pageProps w2 g Hh Hssr Hs Hinit Hwr Hfin Hg.
    rewrite (Heq hook Hh).
    rewrite (getServerSideProps_steps _ _ _ _ _ _ _ _ _ _ _ Hinit Hwr).
    rewrite Hs, Hfin, Hssr. simpl. unfold bind.
    extraction_cases l.
    all: destruct (run_getDataFromTree_outcome rt (AppTree ctx) pageProps l w2)
           as (w3 & Hrun & Hw3); rewrite Hrun; simpl.
    all: rewrite Hg in Hw3; simpl in Hw3.
    all: pose proof (initApolloClient_frame rt apolloConfig VNull (Some ctx) w0) as H1;
         pose proof (run_wrapped_frame PageComponent (with_apolloClient ctx l) w1) as H2;
         rewrite Hinit in H1; rewrite Hwr in H2; simpl in H1, H2.
    all: unfold emitted; simpl.
    all: destruct (g _ (clients w2)) as [[[]|e''] h]; destruct Hw3 as [_ ->];
         rewrite H2, H1, <- app_assoc, drop_app_length; simpl; left.
Qed.

(** *** The constructor's options *)

Lemma passed_config_lookup rt config initialState (c : Cache) :
  let passed := passed_config rt config initialState c in
  passed !! "createCache" = None
  /\ (forall k v, k <> "createCache" -> config !! k = Some v -> passed !! k = Some v)
  /\ (config !! "ssrMode" = None ->
      passed !! "ssrMode" = Some (VBool (negb (window_defined rt))))
  /\ (config !! "cache" = None ->
      passed !! "cache"
      = Some (VCache (restore c (js_or (default_param initialState (VData ∅)) (VData ∅)))))
  /\ (forall k, k <> "ssrMode" -> k <> "cache" -> config !! k = None ->
        passed !! k = None).
Proof.
  unfold passed_config, config_literal, spread_over. simpl.
  split; [apply lookup_delete_eq|]. split; [|split; [|split]].
  - intros k v Hk Hv. rewrite lookup_delete_ne by done.
    by apply lookup_union_Some_l.
  - intros Hnone. rewrite lookup_delete_ne by done.
    rewrite lookup_union_r by done.
    rewrite lookup_insert_ne by done. apply lookup_insert_eq.
  - intros Hnone. rewrite lookup_delete_ne by done.
    rewrite lookup_union_r by done. apply lookup_insert_eq.
  - intros k Hs Hc Hnone.
    destruct (decide (k = "createCache")) as [->|Hk]; [apply lookup_delete_eq|].
    rewrite lookup_delete_ne by done. rewrite lookup_union_r by done.
    rewrite !lookup_insert_ne by done. apply lookup_empty.
Qed.

(** C10.  When [createApolloClient] reaches the constructor, the options it
    passes have no [createCache] key; every other key of the supplied
    configuration is there with the supplied value, also [ssrMode] and
    [cache]; the defaults ([ssrMode] from the execution context, [cache] the
    created cache restored from the initial state) fill in only the keys the
    configuration lacks; nothing else is added; and a [null] initial state
    restores from the empty snapshot, exactly like [{}]. *)
Theorem createApolloClient_options rt config initialState w (l : loc) w' :
  createApolloClient rt config initialState w = (Normal l, w') ->
  exists (client : ApolloClient Cache) (c : Cache),
    made_cache config = Some c
    /\ clients w' !! l = Some client
    /\ cache client = prop (options client) "cache"
    /\ options client !! "createCache" = None
    /\ (forall k v, k <> "createCache" -> config !! k = Some v ->
          options client !! k = Some v)
    /\ (config !! "ssrMode" = None ->
        options client !! "ssrMode" = Some (VBool (negb (window_defined rt))))
    /\ (config !! "cache" = None ->
        options client !! "cache"
        = Some (VCache (restore c
                  (js_or (default_param initialState (VData ∅)) (VData ∅)))))
    /\ (forall k, k <> "ssrMode" -> k <> "cache" -> config !! k = None ->
          options client !! k = None)
    /\ js_or (default_param VNull (VData ∅)) (VData ∅) = (VData ∅ : value)
    /\ (forall w0, createApolloClient rt config VNull w0
                   = createApolloClient rt config (VData ∅) w0).
Proof.
  intros Hcreate.
  destruct (made_cache config) as [c|] eqn:Hm.
  2:{ destruct (createApolloClient_throws rt config initialState w Hm) as [e He].
      congruence. }
  destruct (ApolloClient_invariant rt (passed_config rt config initialState c))
    as [e|] eqn:Hacc.
  { rewrite (createApolloClient_rejected _ _ _ _ c e Hm Hacc) in Hcreate. congruence. }
  rewrite (createApolloClient_made _ _ _ _ c Hm Hacc) in Hcreate.
  injection Hcreate as <- <-.
  destruct (passed_config_lookup rt config initialState c) as (H1 & H2 & H3 & H4 & H5).
  eexists _, c. split; [done|]. simpl.
  split; [apply lookup_insert_eq|]. simpl.
  split; [reflexivity|]. split; [exact H1|]. split; [exact H2|].
  split; [exact H3|]. split; [exact H4|]. split; [exact H5|].
  split; [reflexivity|]. intros w0. reflexivity.
Qed.

(** *** Configuration functions and pre-built clients *)

(** C7.  A configuration function is called with the context
    [initApolloClient] was given and the call then proceeds exactly as if the
    returned object had been supplied; and whenever a client is created (on
    the server, or in the browser with a null handle) it is created by
    [createApolloClient] from that object, or from the supplied object
    itself when the configuration is not a function. *)
Theorem apolloConfig_function_or_object rt initialState context w :
  (forall f : option (Context Cache) -> object,
     initApolloClient rt (ConfigFunction f) initialState context w
     = initApolloClient rt (ConfigObject (f context)) initialState context w)
  /\ (forall apolloConfig,
        window_defined rt = false \/ apolloClient w = None ->
        initApolloClient rt apolloConfig initialState context w
        = let '(r, w') :=
            createApolloClient rt
              (match apolloConfig with
               | ConfigFunction f => f context
               | ConfigObject config => config
               end) initialState w in
          (r, match r with
              | Normal created =>
                  if window_defined rt then set_apolloClient (Some created) w' else w'
              | Throw _ => w'
              end)).
Proof.
  split; [reflexivity|].
  intros apolloConfig Hcreate.
  change (match apolloConfig with
          | ConfigFunction f => f context
          | ConfigObject config => config
          end) with (resolve_config apolloConfig context).
  destruct (window_defined rt) eqn:Hw.
  - destruct Hcreate as [?|Hnone]; [done|].
    by rewrite initApolloClient_browser_create.
  - rewrite initApolloClient_server by done.
    by destruct (createApolloClient _ _ _ w) as [[?|?] ?].
Qed.

(** C8.  On the first render of a component instance: a truthy
    [apolloClient] prop (a client object always is) becomes the client of the
    provider and the world is left as it was (no client is initialised);
    without one, the client is the result of [initApolloClient] on the
    factory's configuration and the [apolloState] prop.  On later renders the
    memoised client is reused.  In each case the page receives the remaining
    props. *)
Theorem WithApollo_client rt apolloConfig (PageComponent : PageComponent Cache)
    (props : object) w :
  let pageProps := delete "apolloState" (delete "apolloClient" props) in
  (forall supplied,
     props !! "apolloClient" = Some supplied -> truthy supplied = true ->
     WithApollo rt apolloConfig PageComponent None props w
     = (Normal (ApolloProviderElement supplied (name PageComponent) pageProps,
                Some supplied), w))
  /\ (forall l : loc,
        props !! "apolloClient" = Some (VClient l) ->
        WithApollo rt apolloConfig PageComponent None props w
        = (Normal (ApolloProviderElement (VClient l) (name PageComponent) pageProps,
                   Some (VClient l)), w))
  /\ (truthy (prop props "apolloClient") = false ->
      WithApollo rt apolloConfig PageComponent None props w
      = let '(r, w') :=
          initApolloClient rt apolloConfig (prop props "apolloState") None w in
        (match r with
         | Normal created =>
             Normal (ApolloProviderElement (VClient created) (name PageComponent)
                       pageProps, Some (VClient created))
         | Throw e => Throw e
         end, w'))
  /\ (props !! "apolloClient" = None -> truthy (prop props "apolloClient") = false)
  /\ (forall memoised,
        WithApollo rt apolloConfig PageComponent (Some memoised) props w
        = (Normal (ApolloProviderElement memoised (name PageComponent) pageProps,
                   Some memoised), w)).
Proof.
  intros pageProps.
  assert (Hsupplied : forall supplied,
     props !! "apolloClient" = Some supplied -> truthy supplied = true ->
     WithApollo rt apolloConfig PageComponent None props w
     = (Normal (ApolloProviderElement supplied (name PageComponent) pageProps,
                Some supplied), w)).
  { intros supplied Hp Ht. unfold WithApollo, useMemo, bind, ret, prop.
    rewrite Hp. simpl. by rewrite Ht. }
  split; [done|]. split; [|split; [|split]].
  - intros l Hl. by apply Hsupplied.
  - intros Hf. unfold WithApollo, useMemo, bind, ret. rewrite Hf.
    by destruct (initApolloClient _ _ _ _ w) as [[?|?] ?].
  - intros Hnone. unfold prop. by rewrite Hnone.
  - intros memoised. reflexivity.
Qed.

(** *** The snapshot from server to browser *)

(** First render in the browser with a null handle and no client prop: the
    client is created from the [apolloState] prop. *)
Lemma WithApollo_creates rt apolloConfig (PageComponent : PageComponent Cache)
    (props : object) w (c0 : Cache) :
  window_defined rt = true ->
  apolloClient w = None ->
  truthy (prop props "apolloClient") = false ->
  made_cache (resolve_config apolloConfig None) = Some c0 ->
  let passed :=
    passed_config rt (resolve_config apolloConfig None) (prop props "apolloState") c0 in
  ApolloClient_invariant rt passed = None ->
  WithApollo rt apolloConfig PageComponent None props w
  = (Normal (ApolloProviderElement (VClient (next_loc w)) (name PageComponent)
               (delete "apolloState" (delete "apolloClient" props)),
             Some (VClient (next_loc w))),
     {| apolloClient := Some (next_loc w);
        next_loc := S (next_loc w);
        clients := <[next_loc w := {| cache := prop passed "cache"; options := passed |}]>
                     (clients w);
        trace := trace w |}).
Proof.
  intros Hb Hnone Hf Hm passed Hacc.
  unfold WithApollo, useMemo. rewrite Hf. unfold bind at 1. unfold bind at 1.
  rewrite initApolloClient_browser_create by done.
  by rewrite (createApolloClient_made _ _ _ _ c0 Hm Hacc).
Qed.

(** C6 (amended).  The snapshot the hook returns on the server is the
    extraction of the server client's cache; and when the decorated component
    is first rendered in the browser with the returned props, with a null
    handle, no client among the props, and a configuration that has no
    [cache] key of its own and whose options the library's constructor
    accepts, the client it creates has as its cache the cache
    made by [createCache()] (or the default cache) restored from exactly that
    snapshot; for a cache whose [restore] replaces its contents, extracting
    the browser client's cache gives back the server's snapshot. *)
Theorem snapshot_round_trip (server browser : Runtime Cache) apolloConfig
    (PageComponent : PageComponent Cache) (ssr : value) (ctx ctx2 : Context Cache)
    w (l : loc) w1 (pageProps : object) w2 (r : Completion object) w'
    (client : ApolloClient Cache) (k : Cache) (wb : World Cache) (c0 : Cache) :
  window_defined server = false ->
  initApolloClient server apolloConfig VNull (Some ctx) w = (Normal l, w1) ->
  run_wrapped PageComponent (with_apolloClient ctx l) w1
    = (Normal (pageProps, ctx2), w2) ->
  response_finished ctx2 = false ->
  WithApollo_getServerSideProps server apolloConfig PageComponent ssr ctx w = (r, w') ->
  clients w' !! l = Some client ->
  cache client = VCache k ->
  window_defined browser = true ->
  apolloClient wb = None ->
  truthy (prop pageProps "apolloClient") = false ->
  resolve_config apolloConfig None !! "cache" = None ->
  made_cache (resolve_config apolloConfig None) = Some c0 ->
  ApolloClient_invariant browser
    (passed_config browser (resolve_config apolloConfig None) (VData (extract k)) c0)
    = None ->
  exists (props : object) (wb' : World Cache) (created : ApolloClient Cache),
    r = Normal props
    /\ props !! "apolloState" = Some (VData (extract k))
    /\ WithApollo browser apolloConfig PageComponent None props wb
       = (Normal (ApolloProviderElement (VClient (next_loc wb)) (name PageComponent)
                    (delete "apolloState" (delete "apolloClient" props)),
                  Some (VClient (next_loc wb))), wb')
    /\ apolloClient wb' = Some (next_loc wb)
    /\ clients wb' !! next_loc wb = Some created
    /\ cache created = VCache (restore c0 (VData (extract k)))
    /\ (RestoringCache Cache ->
        extract (restore c0 (VData (extract k))) = extract k).
Proof.
  intros Hs Hinit Hwr Hfin Hhook Hl Hk Hb Hnone Hnoclient Hnocache Hm Hacc.
  destruct (getServerSideProps_extracts _ _ _ _ _ _ _ _ _ _ _ _ _ _ _
              Hinit Hwr (or_intror Hfin) Hhook Hl Hk) as [-> _].
  set (props := <["apolloState" := VData (extract k)]> pageProps).
  assert (Hstate : prop props "apolloState" = VData (extract k)).
  { unfold prop, props. by rewrite lookup_insert_eq. }
  assert (Hclient : truthy (prop props "apolloClient") = false).
  { unfold prop, props in *. by rewrite lookup_insert_ne. }
  pose proof (WithApollo_creates browser apolloConfig PageComponent props wb c0
                Hb Hnone Hclient Hm) as Hrender.
  simpl in Hrender. rewrite Hstate in Hrender. specialize (Hrender Hacc).
  eexists props, _, _. split; [done|].
  split; [apply lookup_insert_eq|].
  split; [exact Hrender|]. simpl.
  split; [done|]. split; [apply lookup_insert_eq|]. simpl.
  split.
  - destruct (passed_config_lookup browser (resolve_config apolloConfig None)
                (VData (extract k)) c0) as (_ & _ & _ & H4 & _).
    unfold prop. by rewrite (H4 Hnocache).
  - intros Hlaw. apply Hlaw.
Qed.

End Claims.

(** ** The claims at concrete inputs *)

Lemma initApolloClient_server_fresh_witness :
  window_defined server_runtime = false
  /\ returned_clients (init_each server_runtime two_calls fresh_process).1 = [0; 1]
  /\ (NoDup (returned_clients (init_each server_runtime two_calls fresh_process).1)
      /\ apolloClient (init_each server_runtime two_calls fresh_process).2 = None)
  /\ creation_ok server_runtime link_object VNull = true
  /\ exists w' : World InMemoryCache,
       initApolloClient server_runtime link_config VNull (Some request) fresh_process
       = (Normal 0, w')
       /\ next_loc w' = 1
       /\ is_Some (clients w' !! 0).
Proof.
  split; [reflexivity|]. split; [vm_compute; reflexivity|].
  destruct (initApolloClient_server_fresh server_runtime eq_refl)
    as (_ & _ & Hcreate & Hseries).
  split; [apply Hseries|]. split; [vm_compute; reflexivity|].
  apply (Hcreate link_config VNull (Some request) fresh_process).
  vm_compute. reflexivity.
Defined.

Lemma initApolloClient_browser_reuse_witness :
  window_defined browser_runtime = true
  /\ returned_clients (init_each browser_runtime two_calls fresh_process).1 = [0; 0]
  /\ apolloClient (init_each browser_runtime two_calls fresh_process).2 = Some 0
  /\ next_loc (init_each browser_runtime two_calls fresh_process).2 <= 1
  /\ exists w' : World InMemoryCache,
       initApolloClient browser_runtime link_config VNull None fresh_process
       = (Normal 0, w')
       /\ apolloClient w' = Some 0
       /\ is_Some (clients w' !! 0).
Proof.
  split; [reflexivity|]. split; [vm_compute; reflexivity|].
  destruct (initApolloClient_browser_reuse browser_runtime eq_refl)
    as (_ & _ & Hcreate & Hseries).
  destruct (Hseries two_calls fresh_process) as (Hhandle & _ & _ & Hnext).
  split; [|split; [exact Hnext|]].
  - apply Hhandle. vm_compute. left.
  - apply (Hcreate link_config VNull None fresh_process); [reflexivity|].
    vm_compute. reflexivity.
Defined.

Lemma getDataFromTree_error_is_caught_witness :
  exists w',
    WithApollo_getServerSideProps failing_server link_config plain_page (VBool true)
      request fresh_process
    = (Normal (<["apolloState" := VData ∅]> ∅), w')
    /\ clients w' = {[ 0 := link_client ]}
    /\ emitted fresh_process w'
       = [GetDataFromTree (pass_tree "App" ∅ 0);
          ConsoleError "Error while running `getDataFromTree`" network_error;
          HeadRewind].
Proof.
  refine (getDataFromTree_error_is_caught failing_server link_config plain_page
            (VBool true) request (with_apolloClient request 0) fresh_process 0
            (initialised failing_server link_config request) ∅
            (fetched failing_server link_config plain_page request)
            network_error {[ 0 := link_client ]} link_client {| data := ∅ |}
            _ _ _ _ _ _ _ _);
    vm_compute; reflexivity.
Defined.

Lemma finished_response_returns_pageProps_witness :
  WithApollo_getServerSideProps server_runtime link_config querying_page (VBool true)
    redirected fresh_process
  = (Normal {[ "title" := VStr "Posts" ]},
     fetched server_runtime link_config querying_page redirected)
  /\ emitted fresh_process (fetched server_runtime link_config querying_page redirected)
     = []
  /\ (getServerSideProps querying_page = None ->
      ({[ "title" := VStr "Posts" ]} : gmap string (value InMemoryCache)) = ∅).
Proof.
  refine (finished_response_returns_pageProps server_runtime link_config querying_page
            (VBool true) redirected
            (with_apolloClient redirected 0) fresh_process 0
            (initialised server_runtime link_config redirected) _ _ _ _ _ _);
    vm_compute; reflexivity.
Defined.

Lemma getServerSideProps_merges_snapshot_witness :
  (WithApollo_getServerSideProps server_runtime link_config querying_page
     (VBool true) request fresh_process).1
  = Normal (<["apolloState" := VData written]> {[ "title" := VStr "Posts" ]})
  /\ (getServerSideProps querying_page = None ->
      ({[ "title" := VStr "Posts" ]} : gmap string (value InMemoryCache)) = ∅).
Proof.
  refine (getServerSideProps_merges_snapshot server_runtime link_config querying_page
            (VBool true) request (with_apolloClient request 0) fresh_process 0
            (initialised server_runtime link_config request)
            {[ "title" := VStr "Posts" ]}
            (fetched server_runtime link_config querying_page request)
            (WithApollo_getServerSideProps server_runtime link_config querying_page
               (VBool true) request fresh_process).1
            (WithApollo_getServerSideProps server_runtime link_config querying_page
               (VBool true) request fresh_process).2
            queried_client {| data := written |} _ _ _ _ _ _);
    try (vm_compute; reflexivity).
  right. reflexivity.
Defined.

Lemma createApolloClient_options_witness :
  exists (client : ApolloClient InMemoryCache) (c : InMemoryCache),
    made_cache factory_object = Some c
    /\ clients (createApolloClient server_runtime factory_object VNull fresh_process).2 !! 0
       = Some client
    /\ options client !! "createCache" = None
    /\ options client !! "link" = Some (VOpaque "HttpLink")
    /\ options client !! "ssrMode" = Some (VBool true)
    /\ options client !! "cache" = Some (VCache (restore c (VData ∅))).
Proof.
  destruct (createApolloClient_options server_runtime factory_object VNull
              fresh_process 0
              (createApolloClient server_runtime factory_object VNull fresh_process).2
              eq_refl)
    as (client & c & Hmade & Hclient & _ & Hnone & Hkeep & Hssr & Hcache & _).
  exists client, c.
  split; [exact Hmade|]. split; [exact Hclient|]. split; [exact Hnone|].
  split; [apply Hkeep; [discriminate | reflexivity]|].
  split; [apply Hssr; reflexivity|].
  apply Hcache. reflexivity.
Defined.

Lemma snapshot_round_trip_witness :
  exists (props : gmap string (value InMemoryCache)) (wb' : World InMemoryCache)
         (created : ApolloClient InMemoryCache),
    (WithApollo_getServerSideProps server_runtime link_config querying_page
       (VBool true) request fresh_process).1 = Normal props
    /\ props !! "apolloState" = Some (VData written)
    /\ (WithApollo browser_runtime link_config querying_page None props
          fresh_process).2 = wb'
    /\ apolloClient wb' = Some 0
    /\ clients wb' !! 0 = Some created
    /\ cache created = VCache {| data := written |}
    /\ extract (restore {| data := ∅ |} (VData written)) = written.
Proof.
  destruct (snapshot_round_trip server_runtime browser_runtime link_config
              querying_page (VBool true) request (with_apolloClient request 0)
              fresh_process 0
              (initialised server_runtime link_config request)
              {[ "title" := VStr "Posts" ]}
              (fetched server_runtime link_config querying_page request)
              (WithApollo_getServerSideProps server_runtime link_config querying_page
                 (VBool true) request fresh_process).1
              (WithApollo_getServerSideProps server_runtime link_config querying_page
                 (VBool true) request fresh_process).2
              queried_client {| data := written |} fresh_process {| data := ∅ |}
              eq_refl eq_refl eq_refl eq_refl eq_refl eq_refl eq_refl eq_refl
              eq_refl eq_refl eq_refl eq_refl eq_refl)
    as (props & wb' & created & Hr & Hstate & Hrender & Hhandle & Hclient & Hcache
        & Hlaw).
  exists props, wb', created.
  split; [exact Hr|]. split; [exact Hstate|].
  split; [by rewrite Hrender|]. split; [exact Hhandle|]. split; [exact Hclient|].
  split; [exact Hcache|]. exact (Hlaw InMemoryCache_restoring).
Defined.

(** ** Where the claims as worded fail *)

(** C5 as worded fails on the redirect path: with a finished response the
    hook of a page without a hook of its own returns the empty object, which
    has no [apolloState] field, so it is not the empty object extended with a
    snapshot. *)
Lemma redirect_returns_no_snapshot :
  (WithApollo_getServerSideProps server_runtime link_config plain_page (VBool true)
     redirected fresh_process).1 = Normal ∅
  /\ ~ (exists snapshot : gmap string string,
          (WithApollo_getServerSideProps server_runtime link_config plain_page
             (VBool true) redirected fresh_process).1
          = Normal (<["apolloState" := VData snapshot]> ∅)).
Proof.
  assert (Hrun :
    (WithApollo_getServerSideProps server_runtime link_config plain_page (VBool true)
       redirected fresh_process).1 = Normal ∅) by (vm_compute; reflexivity).
  split; [exact Hrun|].
  intros [snapshot Heq]. rewrite Hrun in Heq.
  apply (f_equal (fun r => match r with
                           | Normal m => m !! "apolloState"
                           | Throw _ => None
                           end)) in Heq.
  rewrite lookup_insert_eq, lookup_empty in Heq. discriminate.
Qed.

(** C6 as worded fails for a configuration that brings its own [cache]: the
    server's snapshot holds what the page's query wrote, but the client the
    browser creates from that snapshot keeps the configuration's cache, which
    is not the restored one and does not hold the snapshot. *)
Lemma own_cache_is_not_rehydrated :
  let server_run :=
    WithApollo_getServerSideProps server_runtime own_cache_config querying_page
      (VBool true) request fresh_process in
  let props : gmap string (value InMemoryCache) :=
    <["apolloState" := VData written]> {[ "title" := VStr "Posts" ]} in
  let render :=
    WithApollo browser_runtime own_cache_config querying_page None props fresh_process in
  server_run.1 = Normal props
  /\ cache <$> clients server_run.2 !! 0 = Some (VCache {| data := written |})
  /\ render.1
     = Normal (ApolloProviderElement (VClient 0) "Posts" {[ "title" := VStr "Posts" ]},
               Some (VClient 0))
  /\ cache <$> clients render.2 !! 0 = Some (VCache {| data := ∅ |})
  /\ (VCache {| data := ∅ |} : value InMemoryCache)
     <> VCache (restore new_InMemoryCache (VData written))
  /\ extract {| data := ∅ |} <> written.
Proof.
  simpl.
  split; [vm_compute; reflexivity|]. split; [vm_compute; reflexivity|].
  split; [vm_compute; reflexivity|]. split; [vm_compute; reflexivity|].
  assert (Hne : (∅ : gmap string string) <> written).
  { intros Heq. apply (f_equal (fun m => m !! "ROOT_QUERY")) in Heq.
    unfold written in Heq. rewrite lookup_empty, lookup_singleton_eq in Heq.
    discriminate. }
  split; [|exact Hne].
  simpl. intros Heq. apply Hne.
  by apply (f_equal (fun v => match v with
                              | VCache c => data c
                              | _ => ∅
                              end)) in Heq.
Qed.

(** ** Further properties of the module *)

Section Further.
Context {Cache : Type} `{!ApolloCache Cache}.

Abbreviation value := (value Cache).
Abbreviation object := (gmap string value).

Implicit Types (rt : Runtime Cache) (w : World Cache) (config : object)
  (initialState : value) (apolloConfig : ApolloConfig Cache)
  (context : option (Context Cache)).

(** *** Creating and initialising clients *)

(** The three ways a call of [initApolloClient] can go. *)
Lemma initApolloClient_cases rt apolloConfig initialState context w :
  let config := resolve_config apolloConfig context in
  (exists c, window_defined rt = true /\ apolloClient w = Some c
     /\ initApolloClient rt apolloConfig initialState context w = (Normal c, w))
  \/ (exists c0,
        (window_defined rt = false \/ apolloClient w = None)
        /\ (made_cache config = Some c0
            /\ ApolloClient_invariant rt (passed_config rt config initialState c0) = None)
        /\ initApolloClient rt apolloConfig initialState context w
           = (Normal (next_loc w),
              {| apolloClient :=
                   if window_defined rt then Some (next_loc w) else apolloClient w;
                 next_loc := S (next_loc w);
                 clients :=
                   <[next_loc w :=
                       {| cache := prop (passed_config rt config initialState c0) "cache";
                          options := passed_config rt config initialState c0 |}]>
                     (clients w);
                 trace := trace w |}))
  \/ (exists e,
        (window_defined rt = false \/ apolloClient w = None)
        /\ creation_ok rt config initialState = false
        /\ initApolloClient rt apolloConfig initialState context w = (Throw e, w)).
Proof.
  intros config.
  assert (Hcreate :
    (exists c0, (made_cache config = Some c0
                 /\ ApolloClient_invariant rt (passed_config rt config initialState c0)
                    = None)
                /\ createApolloClient rt config initialState w
                   = (Normal (next_loc w),
                      {| apolloClient := apolloClient w;
                         next_loc := S (next_loc w);
                         clients :=
                           <[next_loc w :=
                               {| cache :=
                                    prop (passed_config rt config initialState c0) "cache";
                                  options := passed_config rt config initialState c0 |}]>
                             (clients w);
                         trace := trace w |}))
    \/ (exists e, creation_ok rt config initialState = false
                  /\ createApolloClient rt config initialState w = (Throw e, w))).
  { unfold creation_ok. destruct (made_cache config) as [c0|] eqn:Hm.
    - destruct (ApolloClient_invariant rt (passed_config rt config initialState c0))
        as [e|] eqn:Hacc.
      + right. exists e. split; [done|]. by apply (createApolloClient_rejected _ _ _ _ c0).
      + left. exists c0. split; [done|]. by apply createApolloClient_made.
    - right. destruct (createApolloClient_throws rt config initialState w Hm) as [e He].
      eauto. }
  destruct (window_defined rt) eqn:Hw.
  - destruct (apolloClient w) as [c|] eqn:Hc.
    + left. exists c. split; [done|]. split; [done|].
      by apply initApolloClient_browser_existing.
    + right. rewrite initApolloClient_browser_create by done. fold config.
      destruct Hcreate as [(c0 & Hok & ->) | (e & Hbad & ->)].
      * left. exists c0. split; [by right|]. done.
      * right. exists e. by split; [right|].
  - right. rewrite initApolloClient_server by done. fold config.
    destruct Hcreate as [(c0 & Hok & ->) | (e & Hbad & ->)].
    + left. exists c0. split; [by left|]. done.
    + right. exists e. by split; [left|].
Qed.


(** The client [createApolloClient] builds when [createCache()] is [c0] and
    the constructor accepts the options. *)
Lemma createApolloClient_client rt config initialState w (c0 : Cache) :
  made_cache config = Some c0 ->
  ApolloClient_invariant rt (passed_config rt config initialState c0) = None ->
  exists w' (client : ApolloClient Cache),
    createApolloClient rt config initialState w = (Normal (next_loc w), w')
    /\ clients w' !! next_loc w = Some client
    /\ cache client
       = match config !! "cache" with
         | Some own => own
         | None =>
             VCache (restore c0 (js_or (default_param initialState (VData ∅)) (VData ∅)))
         end.
Proof.
  intros Hm Hacc. rewrite (createApolloClient_made _ _ _ _ c0 Hm Hacc).
  eexists _, _. split; [reflexivity|]. simpl. split; [apply lookup_insert_eq|].
  simpl. destruct (passed_config_lookup rt config initialState c0)
    as (_ & Hkeep & _ & Hdefault & _).
  unfold prop. destruct (config !! "cache") as [own|] eqn:Hown.
  - by rewrite (Hkeep "cache" own).
  - by rewrite Hdefault.
Qed.

(** X7.  Where the cache of a created client comes from.  The cache handed
    to the constructor is made by [createCache()] when the configuration has
    such a function, and is a new [InMemoryCache] when [createCache] is
    missing or falsy; either way it is restored from the initial state, or
    from the empty snapshot when the initial state is undefined or falsy.
    When the constructor accepts the options, the created client's cache is
    the configuration's own [cache] entry if it has one, and that restored
    cache otherwise; when it rejects them, the call throws the constructor's
    error.  A truthy [createCache] that is not a function, or a function that
    does not return a cache, makes the call throw a [TypeError] before the
    constructor is reached. *)
Theorem createApolloClient_cache rt config initialState w :
  let state := js_or (default_param initialState (VData ∅)) (VData ∅) in
  let created := createApolloClient rt config initialState w in
  (forall c0 : Cache,
     (truthy (prop config "createCache") = false /\ c0 = new_InMemoryCache)
     \/ (exists g, config !! "createCache" = Some (VFunction g) /\ g tt = VCache c0) ->
     (ApolloClient_invariant rt (passed_config rt config initialState c0) = None ->
      exists client : ApolloClient Cache,
        created.1 = Normal (next_loc w)
        /\ clients created.2 !! next_loc w = Some client
        /\ cache client = default (VCache (restore c0 state)) (config !! "cache"))
     /\ (forall e,
          ApolloClient_invariant rt (passed_config rt config initialState c0) = Some e ->
          created.1 = Throw e))
  /\ (forall v,
        config !! "createCache" = Some v -> truthy v = true ->
        (forall g (c0 : Cache), v = VFunction g -> g tt <> VCache c0) ->
        exists msg, created = (Throw (TypeError msg), w))
  /\ (truthy initialState = false -> state = VData ∅)
  /\ (forall d, initialState = VData d -> state = VData d).
Proof.
  intros state created. split; [|split; [|split]].
  - intros c0 Hfrom.
    assert (Hm : made_cache config = Some c0).
    { destruct Hfrom as [[Hfalsy ->] | (g & Hg & Hc0)].
      - unfold made_cache, js_or. by rewrite Hfalsy.
      - unfold made_cache, js_or, prop. rewrite Hg. simpl. by rewrite Hc0. }
    split.
    + intros Hacc.
      destruct (createApolloClient_client rt config initialState w _ Hm Hacc)
        as (w' & client & Hc & Hl & Hcache).
      exists client. subst created. rewrite Hc. simpl. split; [done|]. split; [done|].
      rewrite Hcache. by destruct (config !! "cache").
    + intros e Hrej. subst created.
      by rewrite (createApolloClient_rejected _ _ _ _ c0 e Hm Hrej).
  - intros v Hv Ht Hbad. subst created.
    unfold createApolloClient, bind, call, call_restore, throw, ret, js_or, prop.
    rewrite Hv. simpl. rewrite Ht.
    destruct v as [| | | | | | | |g]; eauto.
    destruct (g tt) as [| | | | | |c0| |] eqn:Hg; eauto.
    exfalso. by apply (Hbad g c0 eq_refl).
  - intros Hfalsy. subst state. unfold js_or.
    destruct initialState; simpl in *; try done; by rewrite Hfalsy.
  - by intros d ->.
Qed.

(** *** The decorator and the component *)

(** [PageComponent.displayName || PageComponent.name || 'Component'] is never
    the empty string. *)
Lemma page_displayName_nonempty (PageComponent : PageComponent Cache) :
  page_displayName PageComponent <> "".
Proof.
  unfold page_displayName.
  destruct (displayName PageComponent) as [d|].
  - destruct (String.eqb d "") eqn:Hd.
    + destruct (String.eqb (name PageComponent) "") eqn:Hn; [done|].
      by apply String.eqb_neq.
    + by apply String.eqb_neq.
  - destruct (String.eqb (name PageComponent) "") eqn:Hn; [done|].
    by apply String.eqb_neq.
Qed.

(** X1.  Decorating a page is lazy: it creates no client and leaves the
    handle and every client object alone.  In production it sets no display
    name and logs nothing; otherwise the display name is [withApollo(N)],
    where [N] is the page's non-empty [displayName], else its non-empty
    [name], else [Component], and the only thing ever logged is one warning,
    exactly when [N] is [App]. *)
Theorem withData_is_lazy rt apolloConfig (PageComponent : PageComponent Cache)
    (options : option object) w :
  let N := page_displayName PageComponent in
  exists D w',
    withData rt apolloConfig PageComponent options w = (Normal D, w')
    /\ apolloClient w' = apolloClient w
    /\ next_loc w' = next_loc w
    /\ clients w' = clients w
    /\ emitted w w'
       = (if negb (String.eqb (NODE_ENV rt) "production") && String.eqb N "App"
          then [App_warning] else [])
    /\ WithApollo_displayName D
       = (if String.eqb (NODE_ENV rt) "production" then None
          else Some ("withApollo(" ++ N ++ ")")%string)
    /\ N <> ""
    /\ (forall d, displayName PageComponent = Some d -> d <> "" -> N = d)
    /\ ((displayName PageComponent = None \/ displayName PageComponent = Some "") ->
        name PageComponent <> "" -> N = name PageComponent).
Proof.
  intros N.
  assert (Hres : N <> ""
    /\ (forall d, displayName PageComponent = Some d -> d <> "" -> N = d)
    /\ ((displayName PageComponent = None \/ displayName PageComponent = Some "") ->
        name PageComponent <> "" -> N = name PageComponent)).
  { split; [apply page_displayName_nonempty|]. subst N. unfold page_displayName. split.
    - intros d -> Hd. apply String.eqb_neq in Hd. by rewrite Hd.
    - intros [-> | ->] Hn; apply String.eqb_neq in Hn; simpl; by rewrite Hn. }
  unfold withData, bind, ret, log, modify, emitted. fold N.
  destruct (String.eqb (NODE_ENV rt) "production"); simpl.
  - eexists _, _. split; [reflexivity|]. repeat (split; [done|]).
    split; [apply drop_all|]. by split.
  - destruct (String.eqb N "App"); simpl.
    + eexists _, _. split; [reflexivity|]. simpl. repeat (split; [done|]).
      split; [by rewrite drop_app_length|]. by split.
    + eexists _, _. split; [reflexivity|]. repeat (split; [done|]).
      split; [apply drop_all|]. by split.
Qed.

(** What a render that completes has done. *)
Lemma WithApollo_inversion rt apolloConfig (PageComponent : PageComponent Cache)
    (memo : option value) (props : object) w (el : Element Cache)
    (memo' : option value) w' :
  WithApollo rt apolloConfig PageComponent memo props w = (Normal (el, memo'), w') ->
  exists client,
    memo' = Some client
    /\ el = ApolloProviderElement client (name PageComponent)
              (delete "apolloState" (delete "apolloClient" props))
    /\ ((memo = Some client /\ w' = w)
        \/ (memo = None /\ client = prop props "apolloClient"
            /\ truthy client = true /\ w' = w)
        \/ (exists l, memo = None /\ client = VClient l
              /\ truthy (prop props "apolloClient") = false
              /\ initApolloClient rt apolloConfig (prop props "apolloState") None w
                 = (Normal l, w'))).
Proof.
  unfold WithApollo, useMemo, bind, ret. destruct memo as [m|].
  - intros [= <- <- <-]. exists m. eauto.
  - destruct (truthy (prop props "apolloClient")) eqn:Ht.
    + intros [= <- <- <-]. eexists. split; [done|]. split; [done|]. right. left. done.
    + destruct (initApolloClient _ _ _ _ w) as [[l|e] w1] eqn:Hinit; [|done].
      intros [= <- <- <-]. eexists. split; [done|]. split; [done|].
      right. right. exists l. done.
Qed.

(** X9.  The client of a component instance is fixed at its first render:
    that render either takes the truthy [apolloClient] prop and changes
    nothing, or initialises a client from the [apolloState] prop; every later
    render of the instance, whatever props it then gets (another client,
    another snapshot) and in whatever world, provides the same client and
    changes nothing. *)
Theorem WithApollo_memoises rt apolloConfig (PageComponent : PageComponent Cache)
    (props : object) w (el : Element Cache) (memo : option value) w1 :
  WithApollo rt apolloConfig PageComponent None props w = (Normal (el, memo), w1) ->
  exists client,
    memo = Some client
    /\ el = ApolloProviderElement client (name PageComponent)
              (delete "apolloState" (delete "apolloClient" props))
    /\ ((client = prop props "apolloClient" /\ truthy client = true /\ w1 = w)
        \/ (exists l, client = VClient l
              /\ truthy (prop props "apolloClient") = false
              /\ initApolloClient rt apolloConfig (prop props "apolloState") None w
                 = (Normal l, w1)))
    /\ (forall (props' : object) w2,
          WithApollo rt apolloConfig PageComponent memo props' w2
          = (Normal (ApolloProviderElement client (name PageComponent)
                       (delete "apolloState" (delete "apolloClient" props')),
                     memo), w2)).
Proof.
  intros Hrender.
  destruct (WithApollo_inversion _ _ _ _ _ _ _ _ _ Hrender)
    as (client & -> & -> & [[[=] _] | [(_ & -> & Ht & ->) | (l & _ & -> & Hf & Hinit)]]).
  - eexists. split; [done|]. split; [done|]. split; [by left|]. reflexivity.
  - eexists. split; [done|]. split; [done|]. split; [right; eauto|]. reflexivity.
Qed.

(** X8.  In a browser whose handle already holds a client, the first render
    of a component without a client prop provides that client and changes
    nothing: the [apolloState] prop, whatever it is, is not restored into the
    existing client's cache, and no client is created. *)
Theorem WithApollo_reuses_handle rt apolloConfig (PageComponent : PageComponent Cache)
    (props : object) w (c : loc) :
  window_defined rt = true ->
  apolloClient w = Some c ->
  truthy (prop props "apolloClient") = false ->
  WithApollo rt apolloConfig PageComponent None props w
  = (Normal (ApolloProviderElement (VClient c) (name PageComponent)
               (delete "apolloState" (delete "apolloClient" props)),
             Some (VClient c)), w).
Proof.
  intros Hb Hc Hf. unfold WithApollo, useMemo. rewrite Hf.
  unfold bind at 1. unfold bind at 1.
  by rewrite (initApolloClient_browser_existing _ _ _ _ _ c Hb Hc).
Qed.

(** X10.  On the server, when the library's constructor accepts the options,
    the first render of a component without a client prop creates a client of
    its own at the next free location and leaves the handle alone; with a
    snapshot in [apolloState] and a configuration without a [cache] entry,
    that client's cache is the made cache restored from exactly that
    snapshot, and its [ssrMode] option is [true] unless the configuration
    sets it. *)
Theorem WithApollo_server_render rt apolloConfig (PageComponent : PageComponent Cache)
    (props : object) w (c0 : Cache) (d : gmap string string) :
  window_defined rt = false ->
  truthy (prop props "apolloClient") = false ->
  props !! "apolloState" = Some (VData d) ->
  resolve_config apolloConfig None !! "cache" = None ->
  made_cache (resolve_config apolloConfig None) = Some c0 ->
  ApolloClient_invariant rt
    (passed_config rt (resolve_config apolloConfig None) (VData d) c0) = None ->
  exists w' (created : ApolloClient Cache),
    WithApollo rt apolloConfig PageComponent None props w
    = (Normal (ApolloProviderElement (VClient (next_loc w)) (name PageComponent)
                 (delete "apolloState" (delete "apolloClient" props)),
               Some (VClient (next_loc w))), w')
    /\ apolloClient w' = apolloClient w
    /\ next_loc w' = S (next_loc w)
    /\ clients w' !! next_loc w = Some created
    /\ cache created = VCache (restore c0 (VData d))
    /\ (resolve_config apolloConfig None !! "ssrMode" = None ->
        options created !! "ssrMode" = Some (VBool true)).
Proof.
  intros Hs Hf Hstate Hnocache Hm Hacc.
  assert (Hprop : prop props "apolloState" = VData d) by (unfold prop; by rewrite Hstate).
  unfold WithApollo, useMemo. rewrite Hf. unfold bind at 1. unfold bind at 1.
  rewrite initApolloClient_server by done. rewrite Hprop.
  rewrite (createApolloClient_made _ _ _ _ c0 Hm Hacc).
  eexists _, _. split; [reflexivity|]. simpl. split; [done|]. split; [done|].
  split; [apply lookup_insert_eq|]. simpl.
  destruct (passed_config_lookup rt (resolve_config apolloConfig None)
              (VData d) c0) as (_ & _ & Hssr & Hcache & _).
  split.
  - unfold prop. by rewrite (Hcache Hnocache).
  - intros Hnossr. rewrite (Hssr Hnossr). by rewrite Hs.
Qed.

(** X11.  Page properties survive the trip through the hook's result and the
    component: rendered with the wrapped properties extended by a snapshot,
    the component passes to the page those properties without the
    [apolloClient] and [apolloState] keys, hence exactly the wrapped
    properties when they use neither key; a [apolloState] key of the wrapped
    properties is replaced by the snapshot. *)
Theorem page_receives_wrapped_props rt apolloConfig (PageComponent : PageComponent Cache)
    (memo : option value) (pageProps : object) (snapshot : gmap string string) w
    (el : Element Cache) (memo' : option value) w' :
  WithApollo rt apolloConfig PageComponent memo
    (<["apolloState" := VData snapshot]> pageProps) w = (Normal (el, memo'), w') ->
  exists client,
    el = ApolloProviderElement client (name PageComponent)
           (delete "apolloState" (delete "apolloClient" pageProps))
    /\ (pageProps !! "apolloClient" = None -> pageProps !! "apolloState" = None ->
        el = ApolloProviderElement client (name PageComponent) pageProps)
    /\ (<["apolloState" := VData snapshot]> pageProps) !! "apolloState"
       = Some (VData snapshot)
    /\ (forall k, k <> "apolloState" ->
          (<["apolloState" := VData snapshot]> pageProps) !! k = pageProps !! k).
Proof.
  intros Hrender.
  destruct (WithApollo_inversion _ _ _ _ _ _ _ _ _ Hrender) as (client & _ & -> & _).
  assert (Hstrip :
    delete "apolloState"
      (delete "apolloClient" (<["apolloState" := VData snapshot]> pageProps))
    = delete "apolloState" (delete "apolloClient" pageProps)).
  { apply map_eq. intros k.
    destruct (decide (k = "apolloState")) as [->|Hs]; [by rewrite !lookup_delete_eq|].
    rewrite !(lookup_delete_ne _ "apolloState") by done.
    destruct (decide (k = "apolloClient")) as [->|Hc]; [by rewrite !lookup_delete_eq|].
    rewrite !(lookup_delete_ne _ "apolloClient") by done.
    by rewrite lookup_insert_ne. }
  exists client. rewrite Hstrip. split; [done|]. split; [|split].
  - intros Hc Hs. by rewrite (delete_id _ "apolloClient"), (delete_id _ "apolloState").
  - apply lookup_insert_eq.
  - intros k Hk. by rewrite lookup_insert_ne.
Qed.

(** *** More on the pre-render hook *)

(** The [try]/[catch] block only appends to the trace, never a
    [Head.rewind], and leaves the handle and the allocator alone. *)
Lemma run_getDataFromTree_world rt AppTree (pageProps : object) (l : loc) w :
  exists w' evs,
    run_getDataFromTree rt AppTree pageProps l w = (Normal tt, w')
    /\ trace w' = trace w ++ evs
    /\ evs <> []
    /\ (HeadRewind ∉ evs)
    /\ next_loc w' = next_loc w
    /\ apolloClient w' = apolloClient w.
Proof.
  unfold run_getDataFromTree, try_catch.
  destruct (react_ssr rt) as [g|e]; simpl.
  - unfold bind, log, modify, external. simpl.
    destruct (g _ (clients w)) as [[[]|e] h]; simpl.
    + eexists _, _. split; [reflexivity|]. simpl. split; [reflexivity|].
      split; [done|]. split; [|done].
      intros Hin. apply list_elem_of_singleton in Hin. discriminate.
    + eexists _, [_; _]. split; [reflexivity|]. simpl.
      split; [by rewrite <- app_assoc|]. split; [done|]. split; [|done].
      intros Hin. apply elem_of_cons in Hin as [?|Hin]; [discriminate|].
      apply list_elem_of_singleton in Hin. discriminate.
  - eexists _, _. split; [reflexivity|]. simpl. split; [reflexivity|].
    split; [done|]. split; [|done].
    intros Hin. apply list_elem_of_singleton in Hin. discriminate.
Qed.

Lemma run_wrapped_world (PageComponent : PageComponent Cache) (ctx : Context Cache) w :
  next_loc (run_wrapped PageComponent ctx w).2 = next_loc w
  /\ apolloClient (run_wrapped PageComponent ctx w).2 = apolloClient w
  /\ trace (run_wrapped PageComponent ctx w).2 = trace w.
Proof.
  unfold run_wrapped. destruct (getServerSideProps PageComponent) as [f|]; [|done].
  apply external_world.
Qed.

(** The world the hook ends in, once the client is initialised and the
    wrapped hook has returned. *)
Lemma getServerSideProps_final rt apolloConfig (PageComponent : PageComponent Cache)
    (ssr : value) (ctx ctx2 : Context Cache) w (l : loc) w1 (pageProps : object) w2 :
  initApolloClient rt apolloConfig VNull (Some ctx) w = (Normal l, w1) ->
  run_wrapped PageComponent (with_apolloClient ctx l) w1
    = (Normal (pageProps, ctx2), w2) ->
  let out := WithApollo_getServerSideProps rt apolloConfig PageComponent ssr ctx w in
  next_loc out.2 = next_loc w1
  /\ apolloClient out.2 = apolloClient w1
  /\ ((negb (window_defined rt) && negb (response_finished ctx2) && truthy ssr = false
       /\ out.2 = w2 /\ trace out.2 = trace w)
      \/ (negb (window_defined rt) && negb (response_finished ctx2) && truthy ssr = true
          /\ exists evs, trace out.2 = trace w ++ evs ++ [HeadRewind]
                         /\ evs <> [] /\ (HeadRewind ∉ evs))).
Proof.
  intros Hinit Hwr out. subst out.
  pose proof (initApolloClient_frame rt apolloConfig VNull (Some ctx) w) as H1.
  pose proof (run_wrapped_world PageComponent (with_apolloClient ctx l) w1)
    as (Hn2 & Hh2 & H2).
  rewrite Hinit in H1. rewrite Hwr in Hn2, Hh2, H2. simpl in H1, Hn2, Hh2, H2.
  rewrite (getServerSideProps_steps _ _ _ _ _ _ _ _ _ _ _ Hinit Hwr).
  destruct (window_defined rt); simpl.
  { unfold bind.
    pose proof (cache_extract_frame l w2) as Hframe.
    destruct (cache_extract l w2) as [[s|e] w4]; simpl in Hframe; subst w4; simpl;
      (split; [done|]); (split; [done|]); left; (split; [done|]); split; congruence. }
  destruct (response_finished ctx2); simpl.
  { split; [done|]. split; [done|]. left. split; [done|]. split; congruence. }
  destruct (truthy ssr); simpl.
  - destruct (run_getDataFromTree_world rt (AppTree ctx) pageProps l w2)
      as (w3 & evs & Hrun & Ht & Hne & Hnot & Hn3 & Hh3).
    rewrite Hrun. simpl. unfold bind.
    match goal with
    | |- context [cache_extract l ?w5] =>
        pose proof (cache_extract_frame l w5) as Hframe;
        destruct (cache_extract l w5) as [[s|e] w4]; simpl in Hframe; subst w4
    end; simpl.
    all: split; [congruence|]; split; [congruence|]; right; split; [done|].
    all: exists evs; rewrite Ht, H2, H1, <- app_assoc; done.
  - unfold bind.
    pose proof (cache_extract_frame l w2) as Hframe.
    destruct (cache_extract l w2) as [[s|e] w4]; simpl in Hframe; subst w4; simpl;
      (split; [done|]); (split; [done|]); left; (split; [done|]); split; congruence.
Qed.

(** X2.  Unlike an error of the data-fetching pass, an error thrown while the
    client is initialised or by the wrapped page's own hook is not caught:
    the hook throws the same error and logs nothing.  When initialisation
    throws, the wrapped hook is not run and the world is as it was. *)
Theorem getServerSideProps_propagates rt apolloConfig
    (PageComponent : PageComponent Cache) (ssr : value) (ctx : Context Cache) w :
  (forall e w1,
     initApolloClient rt apolloConfig VNull (Some ctx) w = (Throw e, w1) ->
     WithApollo_getServerSideProps rt apolloConfig PageComponent ssr ctx w
     = (Throw e, w))
  /\ (forall (l : loc) w1 e w2,
        initApolloClient rt apolloConfig VNull (Some ctx) w = (Normal l, w1) ->
        run_wrapped PageComponent (with_apolloClient ctx l) w1 = (Throw e, w2) ->
        WithApollo_getServerSideProps rt apolloConfig PageComponent ssr ctx w
        = (Throw e, w2)
        /\ emitted w w2 = []).
Proof.
  split.
  - intros e w1 Hinit.
    assert (w1 = w) as ->.
    { destruct (initApolloClient_cases rt apolloConfig VNull (Some ctx) w)
        as [(c & _ & _ & Heq) | [(c0 & _ & _ & Heq) | (e' & _ & _ & Heq)]];
        rewrite Heq in Hinit; congruence. }
    unfold WithApollo_getServerSideProps, bind. by rewrite Hinit.
  - intros l w1 e w2 Hinit Hwr. split.
    + unfold WithApollo_getServerSideProps. unfold bind at 1. rewrite Hinit.
      unfold bind at 1. by rewrite Hwr.
    + pose proof (initApolloClient_frame rt apolloConfig VNull (Some ctx) w) as H1.
      pose proof (run_wrapped_frame PageComponent (with_apolloClient ctx l) w1) as H2.
      rewrite Hinit in H1. rewrite Hwr in H2. simpl in *.
      unfold emitted. rewrite H2, H1. apply drop_all.
Qed.

(** X3.  Server side with [ssr] on, when the data-fetching pass completes:
    the snapshot the hook returns is the extraction of the client's cache as
    the pass left it, so what the pass fetched is in [apolloState]; the trace
    gets the call of [getDataFromTree] on the tree carrying the page
    properties and the client, then [Head.rewind], and no error is logged. *)
Theorem getDataFromTree_result_in_snapshot rt apolloConfig
    (PageComponent : PageComponent Cache) (ssr : value) (ctx ctx2 : Context Cache)
    w (l : loc) w1 (pageProps : object) w2
    (getDataFromTree : Element Cache -> External Cache unit)
    (h3 : gmap loc (ApolloClient Cache)) (client : ApolloClient Cache) (k : Cache) :
  window_defined rt = false ->
  truthy ssr = true ->
  initApolloClient rt apolloConfig VNull (Some ctx) w = (Normal l, w1) ->
  run_wrapped PageComponent (with_apolloClient ctx l) w1
    = (Normal (pageProps, ctx2), w2) ->
  response_finished ctx2 = false ->
  react_ssr rt = Normal getDataFromTree ->
  getDataFromTree (pass_tree (AppTree ctx) pageProps l) (clients w2) = (Normal tt, h3) ->
  h3 !! l = Some client ->
  cache client = VCache k ->
  exists w',
    WithApollo_getServerSideProps rt apolloConfig PageComponent ssr ctx w
    = (Normal (<["apolloState" := VData (extract k)]> pageProps), w')
    /\ clients w' = h3
    /\ emitted w w'
       = [GetDataFromTree
            (AppTreeElement (AppTree ctx) (<["apolloClient" := VClient l]> pageProps));
          HeadRewind].
Proof.
  intros Hs Hssr Hinit Hwr Hfin Hg Hpass Hl Hk.
  rewrite (getServerSideProps_steps _ _ _ _ _ _ _ _ _ _ _ Hinit Hwr).
  rewrite Hs, Hfin, Hssr. simpl.
  destruct (run_getDataFromTree_outcome rt (AppTree ctx) pageProps l w2)
    as (w3 & Hrun & Hw3).
  rewrite Hrun. simpl. rewrite Hg in Hw3. simpl in Hw3. rewrite Hpass in Hw3.
  destruct Hw3 as [Hc3 Ht3].
  pose proof (initApolloClient_frame rt apolloConfig VNull (Some ctx) w) as H1.
  pose proof (run_wrapped_frame PageComponent (with_apolloClient ctx l) w1) as H2.
  rewrite Hinit in H1. rewrite Hwr in H2. simpl in H1, H2.
  eexists. unfold bind.
  erewrite cache_extract_cache; [|simpl; rewrite Hc3; exact Hl|exact Hk].
  split; [reflexivity|]. simpl. split; [done|].
  unfold emitted. simpl. rewrite Ht3, H2, H1, <- app_assoc.
  by rewrite drop_app_length.
Qed.

Lemma getServerSideProps_init_throws rt apolloConfig
    (PageComponent : PageComponent Cache) (ssr : value) (ctx : Context Cache) w e w1 :
  initApolloClient rt apolloConfig VNull (Some ctx) w = (Throw e, w1) ->
  WithApollo_getServerSideProps rt apolloConfig PageComponent ssr ctx w = (Throw e, w1).
Proof.
  intros Hinit. unfold WithApollo_getServerSideProps, bind. by rewrite Hinit.
Qed.

Lemma getServerSideProps_wrapped_throws rt apolloConfig
    (PageComponent : PageComponent Cache) (ssr : value) (ctx : Context Cache)
    w (l : loc) w1 e w2 :
  initApolloClient rt apolloConfig VNull (Some ctx) w = (Normal l, w1) ->
  run_wrapped PageComponent (with_apolloClient ctx l) w1 = (Throw e, w2) ->
  WithApollo_getServerSideProps rt apolloConfig PageComponent ssr ctx w = (Throw e, w2).
Proof.
  intros Hinit Hwr. unfold WithApollo_getServerSideProps. unfold bind at 1.
  rewrite Hinit. unfold bind at 1. by rewrite Hwr.
Qed.

(** X4.  [Head.rewind] is called in a run of the hook exactly when the run is
    server side with [ssr] truthy, the client was initialised, and the wrapped
    hook returned leaving the response unfinished, whether or not the pass
    then threw.  It is then the last event of the run, called once, after
    what the pass logged; every other run of the hook logs nothing at all. *)
Theorem Head_rewind_follows_the_pass rt apolloConfig
    (PageComponent : PageComponent Cache) (ssr : value) (ctx : Context Cache) w :
  let out := WithApollo_getServerSideProps rt apolloConfig PageComponent ssr ctx w in
  (HeadRewind ∈ emitted w out.2 <->
     window_defined rt = false /\ truthy ssr = true
     /\ exists (l : loc) w1 (pageProps : object) (ctx2 : Context Cache) w2,
          initApolloClient rt apolloConfig VNull (Some ctx) w = (Normal l, w1)
          /\ run_wrapped PageComponent (with_apolloClient ctx l) w1
             = (Normal (pageProps, ctx2), w2)
          /\ response_finished ctx2 = false)
  /\ (emitted w out.2 = []
      \/ exists evs, emitted w out.2 = evs ++ [HeadRewind]
                     /\ evs <> [] /\ (HeadRewind ∉ evs)).
Proof.
  intros out. subst out.
  assert (Hnil : forall w', trace w' = trace w ->
            (HeadRewind ∈ emitted w w' -> False) /\ emitted w w' = []).
  { intros w' Ht. unfold emitted. rewrite Ht, drop_all. split; [|done].
    intros Hin. by apply elem_of_nil in Hin. }
  pose proof (initApolloClient_frame rt apolloConfig VNull (Some ctx) w) as H1.
  destruct (initApolloClient rt apolloConfig VNull (Some ctx) w) as [[l|e] w1] eqn:Hinit;
    simpl in H1.
  2:{ rewrite (getServerSideProps_init_throws _ _ _ _ _ _ _ _ Hinit). simpl.
      destruct (Hnil w1 H1) as [Hno ->]. split; [|by left].
      split; [by intros ?%elem_of_nil|]. intros (_ & _ & l & w1' & pp & c2 & w2 & [=] & _). }
  pose proof (run_wrapped_frame PageComponent (with_apolloClient ctx l) w1) as H2.
  destruct (run_wrapped PageComponent (with_apolloClient ctx l) w1)
    as [[[pageProps ctx2]|e] w2] eqn:Hwr; simpl in H2.
  2:{ rewrite (getServerSideProps_wrapped_throws _ _ _ _ _ _ _ _ _ _ Hinit Hwr). simpl.
      destruct (Hnil w2 ltac:(congruence)) as [Hno ->]. split; [|by left].
      split; [by intros ?%elem_of_nil|].
      intros (_ & _ & l' & w1' & pp & c2 & w2' & [= <- <-] & Hwr' & _). congruence. }
  destruct (getServerSideProps_final rt apolloConfig PageComponent ssr ctx ctx2 w l w1
              pageProps w2 Hinit Hwr)
    as (_ & _ & [(Hcond & _ & Ht) | (Hcond & evs & Ht & Hne & Hnot)]).
  - destruct (Hnil _ Ht) as [Hno ->]. split; [|by left].
    split; [by intros ?%elem_of_nil|].
    intros (Hs & Hssr & l' & w1' & pp & c2 & w2' & [= <- <-] & Hwr' & Hfin).
    rewrite Hwr in Hwr'. injection Hwr' as <- <- <-.
    by rewrite Hs, Hssr, Hfin in Hcond.
  - assert (Hem : emitted w
              (WithApollo_getServerSideProps rt apolloConfig PageComponent ssr ctx w).2
            = evs ++ [HeadRewind]).
    { unfold emitted. by rewrite Ht, drop_app_length. }
    rewrite Hem. split; [|right; eauto].
    split; [|intros _; apply elem_of_app; right; by left].
    intros _.
    apply andb_true_iff in Hcond as [[Hs%negb_true_iff Hfin%negb_true_iff]%andb_true_iff Hssr].
    split; [done|]. split; [done|]. by exists l, w1, pageProps, ctx2, w2.
Qed.

(** The allocator and the handle after the hook are those after
    [initApolloClient]. *)
Lemma getServerSideProps_after_init rt apolloConfig
    (PageComponent : PageComponent Cache) (ssr : value) (ctx : Context Cache)
    w (l : loc) w1 :
  initApolloClient rt apolloConfig VNull (Some ctx) w = (Normal l, w1) ->
  let out := WithApollo_getServerSideProps rt apolloConfig PageComponent ssr ctx w in
  next_loc out.2 = next_loc w1 /\ apolloClient out.2 = apolloClient w1.
Proof.
  intros Hinit out. subst out.
  pose proof (run_wrapped_world PageComponent (with_apolloClient ctx l) w1)
    as (Hn & Hh & _).
  destruct (run_wrapped PageComponent (with_apolloClient ctx l) w1)
    as [[[pageProps ctx2]|e] w2] eqn:Hwr; simpl in Hn, Hh.
  - by destruct (getServerSideProps_final rt apolloConfig PageComponent ssr ctx ctx2 w l
                   w1 pageProps w2 Hinit Hwr) as (? & ? & _).
  - by rewrite (getServerSideProps_wrapped_throws _ _ _ _ _ _ _ _ _ _ Hinit Hwr).
Qed.

(** X12.  A run of the hook allocates at most one client.  Server side it
    never touches the handle, and a run that returns has allocated exactly
    one client: every request gets a client of its own.  In the browser a run
    allocates nothing when the handle holds a client and leaves it there, and
    after any run that returns the handle holds a client. *)
Theorem getServerSideProps_allocation rt apolloConfig
    (PageComponent : PageComponent Cache) (ssr : value) (ctx : Context Cache) w :
  let out := WithApollo_getServerSideProps rt apolloConfig PageComponent ssr ctx w in
  next_loc w <= next_loc out.2 <= S (next_loc w)
  /\ (window_defined rt = false ->
      apolloClient out.2 = apolloClient w
      /\ (forall props, out.1 = Normal props -> next_loc out.2 = S (next_loc w)))
  /\ (window_defined rt = true ->
      (forall c, apolloClient w = Some c ->
         apolloClient out.2 = Some c /\ next_loc out.2 = next_loc w)
      /\ (forall props, out.1 = Normal props -> is_Some (apolloClient out.2))).
Proof.
  intros out. subst out.
  destruct (initApolloClient_cases rt apolloConfig VNull (Some ctx) w)
    as [(c & Hb & Hc & Hinit) | [(c0 & Hneed & Hm & Hinit) | (e & Hneed & Hm & Hinit)]].
  - destruct (getServerSideProps_after_init rt apolloConfig PageComponent ssr ctx w _ _
                Hinit) as [Hn Hh].
    rewrite Hn, Hh. split; [lia|]. split; [congruence|].
    intros _. split.
    + intros c' Hc'. split; [congruence|done].
    + intros _ _. rewrite Hc. eauto.
  - destruct (getServerSideProps_after_init rt apolloConfig PageComponent ssr ctx w _ _
                Hinit) as [Hn Hh].
    rewrite Hn, Hh. simpl. split; [lia|]. split.
    + intros Hs. rewrite Hs. done.
    + intros Hb. rewrite Hb. split; [|eauto].
      intros c Hc. destruct Hneed; congruence.
  - rewrite (getServerSideProps_init_throws _ _ _ _ _ _ _ _ Hinit). simpl.
    split; [lia|]. split.
    + intros _. split; [done|]. intros props [=].
    + intros _. split; [done|]. intros props [=].
Qed.

End Further.

(** ** The further properties at concrete inputs *)

Lemma getDataFromTree_result_in_snapshot_witness :
  exists w',
    WithApollo_getServerSideProps fetching_server link_config plain_page (VBool true)
      request fresh_process
    = (Normal (<["apolloState" := VData written]> ∅), w')
    /\ clients w' = {[ 0 := queried_client ]}
    /\ emitted fresh_process w'
       = [GetDataFromTree (AppTreeElement "App" (<["apolloClient" := VClient 0]> ∅));
          HeadRewind].
Proof.
  refine (getDataFromTree_result_in_snapshot fetching_server link_config plain_page
            (VBool true) request (with_apolloClient request 0) fresh_process 0
            (initialised fetching_server link_config request) ∅
            (fetched fetching_server link_config plain_page request)
            _ {[ 0 := queried_client ]} queried_client {| data := written |}
            _ _ _ _ _ eq_refl _ _ _);
    vm_compute; reflexivity.
Defined.


Lemma WithApollo_reuses_handle_witness :
  WithApollo browser_runtime link_config querying_page None served_props visited_browser
  = (Normal (ApolloProviderElement (VClient 0) "Posts" {[ "title" := VStr "Posts" ]},
             Some (VClient 0)), visited_browser).
Proof.
  refine (WithApollo_reuses_handle browser_runtime link_config querying_page
            served_props visited_browser 0 _ _ _);
    vm_compute; reflexivity.
Defined.

Lemma WithApollo_memoises_witness :
  WithApollo browser_runtime link_config querying_page (Some (VClient 0)) ∅
    fresh_process
  = (Normal (ApolloProviderElement (VClient 0) "Posts" ∅, Some (VClient 0)),
     fresh_process).
Proof.
  destruct (WithApollo_memoises browser_runtime link_config querying_page
              served_props fresh_process
              (ApolloProviderElement (VClient 0) "Posts" {[ "title" := VStr "Posts" ]})
              (Some (VClient 0))
              (WithApollo browser_runtime link_config querying_page None served_props
                 fresh_process).2
              eq_refl)
    as (client & Hmemo & _ & _ & Hlater).
  injection Hmemo as <-.
  exact (Hlater ∅ fresh_process).
Defined.

Lemma WithApollo_server_render_witness :
  exists (w' : World InMemoryCache) (created : ApolloClient InMemoryCache),
    WithApollo server_runtime link_config querying_page None served_props fresh_process
    = (Normal (ApolloProviderElement (VClient 0) "Posts" {[ "title" := VStr "Posts" ]},
               Some (VClient 0)), w')
    /\ apolloClient w' = None
    /\ next_loc w' = 1
    /\ clients w' !! 0 = Some created
    /\ cache created = VCache {| data := written |}
    /\ (link_object !! "ssrMode" = None ->
        options created !! "ssrMode" = Some (VBool true)).
Proof.
  refine (WithApollo_server_render server_runtime link_config querying_page
            served_props fresh_process {| data := ∅ |} written _ _ _ _ _ _);
    vm_compute; reflexivity.
Defined.

Lemma page_receives_wrapped_props_witness :
  exists client : value InMemoryCache,
    ApolloProviderElement (VClient 0) "Posts" {[ "title" := VStr "Posts" ]}
    = ApolloProviderElement client "Posts" {[ "title" := VStr "Posts" ]}.
Proof.
  assert (Hrender :
    WithApollo browser_runtime link_config querying_page None
      (<["apolloState" := VData written]> {[ "title" := VStr "Posts" ]}) visited_browser
    = (Normal (ApolloProviderElement (VClient 0) "Posts" {[ "title" := VStr "Posts" ]},
               Some (VClient 0)), visited_browser))
    by (vm_compute; reflexivity).
  destruct (page_receives_wrapped_props browser_runtime link_config querying_page None
              {[ "title" := VStr "Posts" ]} written visited_browser _ _ _ Hrender)
    as (client & _ & Hsame & _).
  exists client. apply Hsame; reflexivity.
Defined.
